(** * Restaurant booking API: booking ledger, access control, notifications

    A shallow embedding of [main.py] and [sms_service.py], and of the
    seeding of [database.py].

    - The relational store is three lists of rows; a SQL statement is the list
      operation it denotes ([SELECT ... WHERE] is a filter, [fetchrow] takes
      the first row of it, [INSERT] appends, [UPDATE] maps, [DELETE] filters).
    - Dates and times of day are the strings the handlers receive and pass to
      the store unchanged; [<] and [>] on them are the store's comparison of
      text, modelled by the lexicographic order of [String.compare].
    - Every handler is a computation in the monad [M]: it threads the store
      and the standard output, and ends by returning a value or by raising.
    - What a request cannot determine (the fresh UUID, the clock, the token
      library, the hash function, the SMS gateway and its API key) is a field
      of the environment [env] of that request.
    - The DDL of [database.py] names other columns ([username], [customer_id],
      [time]) than the statements of [main.py] use, so no constraint of the
      store (uniqueness, foreign key, cascade) is taken from it: every
      theorem states the well-formedness it needs. The connection to the
      store is taken to succeed, and a request body is the value that passed
      the validation of its pydantic model. *)

From Stdlib Require Import String Ascii List ZArith Bool Lia DecimalString.
From Stdlib Require Import Permutation Sorted.
Import ListNotations.
Local Open Scope string_scope.
Local Open Scope list_scope.

Set Implicit Arguments.

(** ** Python values and helpers *)

(** [str(n)] for an [int]. *)
Definition str_of_int (n : Z) : string := NilZero.string_of_int (Z.to_int n).

(** Truth value of an [Optional[str]]: [None] and the empty string are false. *)
Definition truthy (o : option string) : bool :=
  match o with
  | Some s => negb (s =? "")
  | None => false
  end.

(** [x in (a, b, ...)] for strings. *)
Definition str_in (x : string) (l : list string) : bool :=
  existsb (String.eqb x) l.

(** A value bound to a column in a dynamically built [UPDATE]. *)
Inductive value : Type :=
| VStr (s : string)
| VInt (n : Z).

(** The [fields] dict of the update handlers: keys in insertion order. *)
Definition dict : Type := list (string * value).

Definition dict_in (k : string) (d : dict) : bool :=
  existsb (fun kv => fst kv =? k) d.

(** [d[k] = v] *)
Definition dict_set (k : string) (v : value) (d : dict) : dict :=
  if dict_in k d
  then map (fun kv => if fst kv =? k then (k, v) else kv) d
  else d ++ [(k, v)].

Definition dict_lookup (k : string) (d : dict) : option value :=
  option_map snd (find (fun kv => fst kv =? k) d).

(** [d.get(k, default)] for a key that is only ever bound to text. *)
Definition dict_get (d : dict) (k : string) (default : string) : string :=
  match dict_lookup k d with
  | Some (VStr s) => s
  | Some (VInt n) => str_of_int n
  | None => default
  end.

(** [if x is not None: d[k] = x] *)
Definition set_if_present {A : Type} (inj : A -> value) (k : string)
    (x : option A) (d : dict) : dict :=
  match x with
  | Some v => dict_set k (inj v) d
  | None => d
  end.

(** ** Rows of the store *)

Module User.
Record row : Type := Row {
  id : string;
  name : string;
  email : string;
  password_hash : string;
  salt : string;
  role : string;
  phone : option string
}.

Definition set_role (v : string) (r : row) : row :=
  Row (id r) (name r) (email r) (password_hash r) (salt r) v (phone r).
End User.

Module Table.
Record row : Type := Row {
  id : string;
  number : Z;
  capacity : Z;
  location : option string
}.

(** [SET col = val] for one column of [tables]: the statement writes
    whichever column it names. *)
Definition set_column (r : row) (cv : string * value) : row :=
  match cv with
  | (col, VInt n) =>
      if col =? "number" then Row (id r) n (capacity r) (location r)
      else if col =? "capacity" then Row (id r) (number r) n (location r)
      else r
  | (col, VStr s) =>
      if col =? "id" then Row s (number r) (capacity r) (location r)
      else if col =? "location" then
        Row (id r) (number r) (capacity r) (Some s)
      else r
  end.
End Table.

Module Booking.
Record row : Type := Row {
  id : string;
  user_id : string;
  table_id : string;
  date : string;
  start_time : string;
  end_time : string;
  guests : Z;
  status : string;
  created_at : string
}.

(** [SET col = val] for one column of [bookings]: the statement writes
    whichever column it names, the identifier, the owner and the creation
    time included. *)
Definition set_column (r : row) (cv : string * value) : row :=
  match cv with
  | (col, VStr s) =>
      if col =? "id" then
        Row s (user_id r) (table_id r) (date r) (start_time r) (end_time r)
            (guests r) (status r) (created_at r)
      else if col =? "user_id" then
        Row (id r) s (table_id r) (date r) (start_time r) (end_time r)
            (guests r) (status r) (created_at r)
      else if col =? "created_at" then
        Row (id r) (user_id r) (table_id r) (date r) (start_time r)
            (end_time r) (guests r) (status r) s
      else if col =? "table_id" then
        Row (id r) (user_id r) s (date r) (start_time r) (end_time r)
            (guests r) (status r) (created_at r)
      else if col =? "date" then
        Row (id r) (user_id r) (table_id r) s (start_time r) (end_time r)
            (guests r) (status r) (created_at r)
      else if col =? "start_time" then
        Row (id r) (user_id r) (table_id r) (date r) s (end_time r)
            (guests r) (status r) (created_at r)
      else if col =? "end_time" then
        Row (id r) (user_id r) (table_id r) (date r) (start_time r) s
            (guests r) (status r) (created_at r)
      else if col =? "status" then
        Row (id r) (user_id r) (table_id r) (date r) (start_time r)
            (end_time r) (guests r) s (created_at r)
      else r
  | (col, VInt n) =>
      if col =? "guests" then
        Row (id r) (user_id r) (table_id r) (date r) (start_time r)
            (end_time r) n (status r) (created_at r)
      else r
  end.
End Booking.

(** ** Request bodies (the pydantic models) *)

Module BookingCreate.
Record t : Type := Make {
  table_id : string;
  date : string;
  start_time : string;
  end_time : string;
  guests : Z
}.
End BookingCreate.

Module BookingUpdate.
Record t : Type := Make {
  table_id : option string;
  date : option string;
  start_time : option string;
  end_time : option string;
  guests : option Z;
  status : option string
}.
End BookingUpdate.

Module TableCreate.
Record t : Type := Make {
  number : Z;
  capacity : Z;
  location : option string
}.
End TableCreate.

Module TableUpdate.
Record t : Type := Make {
  number : option Z;
  capacity : option Z;
  location : option string
}.
End TableUpdate.

Module UserLogin.
Record t : Type := Make {
  email : string;
  password : string
}.
End UserLogin.

(** ** The world a request runs in *)

(** The store and the standard output. *)
Record state : Type := State {
  users : list User.row;
  tables : list Table.row;
  bookings : list Booking.row;
  stdout : list string
}.

(** Claims of a decoded token. *)
Record claims : Type := Claims {
  claim_user_id : option string;
  claim_role : option string;
  claim_exp : Z
}.

(** Outcome of [jwt.decode(token, SECRET_KEY, algorithms=["HS256"])]. *)
Inductive decoded : Type :=
| Payload (p : claims)
| ExpiredSignatureError
| InvalidTokenError.

(** Outcome of the [POST] to the SMS gateway followed by [raise_for_status]:
    a response that passes, with the result of [response.json()] (the parsed
    document, or the message of the exception it raises); a response with an
    error status; a timeout; any other exception. *)
Inductive http_reply : Type :=
| Success (json : string + string)
| HTTPStatusError (status_code : Z) (text : string)
| TimeoutException
| OtherException (msg : string).

Record env : Type := Env {
  uuid4 : string;                       (* str(uuid.uuid4()) *)
  now : Z;                              (* datetime.now(UTC7), in minutes *)
  isoformat : Z -> string;
  sha256_hexdigest : string -> string;
  jwt_encode : claims -> string;
  jwt_decode : string -> decoded;
  SMSNOTIF_API_KEY : option string;
  post : string -> string -> string -> http_reply  (* key, to, message *)
}.

(** ** Exceptions and the handler monad *)

Inductive exn : Type :=
| HTTPException (status_code : Z) (detail : string)
| Exception (msg : string).

Inductive outcome (A : Type) : Type :=
| Return (a : A)
| Raise (e : exn).

Arguments Return {A} a.
Arguments Raise {A} e.

Definition M (A : Type) : Type := state -> outcome A * state.

Definition ret {A : Type} (a : A) : M A := fun s => (Return a, s).

Definition raise {A : Type} (e : exn) : M A := fun s => (Raise e, s).

Definition bind {A B : Type} (m : M A) (k : A -> M B) : M B :=
  fun s =>
    match m s with
    | (Return a, s') => k a s'
    | (Raise e, s') => (Raise e, s')
    end.

Notation "x <- m ;; k" := (bind m (fun x => k))
  (at level 61, m at next level, right associativity).
Notation "m ;;; k" := (bind m (fun _ => k))
  (at level 61, right associativity).

(** [try: m except Exception as e: h e] *)
Definition try_except {A : Type} (m : M A) (h : exn -> M A) : M A :=
  fun s =>
    match m s with
    | (Return a, s') => (Return a, s')
    | (Raise e, s') => h e s'
    end.

Definition get : M state := fun s => (Return s, s).

Definition print (line : string) : M unit :=
  fun s => (Return tt,
            State (users s) (tables s) (bookings s) (stdout s ++ [line])).

Definition put_users (l : list User.row) : M unit :=
  fun s => (Return tt, State l (tables s) (bookings s) (stdout s)).

Definition put_tables (l : list Table.row) : M unit :=
  fun s => (Return tt, State (users s) l (bookings s) (stdout s)).

Definition put_bookings (l : list Booking.row) : M unit :=
  fun s => (Return tt, State (users s) (tables s) l (stdout s)).

(** [str(e)] *)
Definition str_of_exn (e : exn) : string :=
  match e with
  | HTTPException c d => str_of_int c ++ ": " ++ d
  | Exception m => m
  end.

(** ** Statements on the store *)

(** [SELECT ... FROM users WHERE id = $1] *)
Definition select_user (user_id : string) : M (option User.row) :=
  s <- get ;; ret (find (fun u => User.id u =? user_id) (users s)).

(** [SELECT ... FROM users WHERE email = $1] *)
Definition select_user_by_email (email : string) : M (option User.row) :=
  s <- get ;; ret (find (fun u => User.email u =? email) (users s)).

(** [SELECT ... FROM tables WHERE id = $1] *)
Definition select_table (table_id : string) : M (option Table.row) :=
  s <- get ;; ret (find (fun t => Table.id t =? table_id) (tables s)).

(** [SELECT id FROM tables WHERE number = $1] *)
Definition select_table_by_number (n : Z) : M (option Table.row) :=
  s <- get ;; ret (find (fun t => (Table.number t =? n)%Z) (tables s)).

(** [SELECT * FROM bookings WHERE id = $1] *)
Definition select_booking (booking_id : string) : M (option Booking.row) :=
  s <- get ;; ret (find (fun b => Booking.id b =? booking_id) (bookings s)).

(** [INSERT INTO bookings ... VALUES ...] *)
Definition insert_booking (b : Booking.row) : M unit :=
  s <- get ;; put_bookings (bookings s ++ [b]).

(** [INSERT INTO tables ... VALUES ...] *)
Definition insert_table (t : Table.row) : M unit :=
  s <- get ;; put_tables (tables s ++ [t]).

(** The rows an [UPDATE bookings SET c1 = $1, ... WHERE id = $n] leaves. *)
Definition updated_bookings (fields : dict) (booking_id : string)
    (l : list Booking.row) : list Booking.row :=
  map (fun b => if Booking.id b =? booking_id
                then fold_left Booking.set_column fields b
                else b) l.

Definition update_bookings (fields : dict) (booking_id : string) : M unit :=
  s <- get ;; put_bookings (updated_bookings fields booking_id (bookings s)).

(** [DELETE FROM bookings WHERE id = $1] *)
Definition delete_bookings (booking_id : string) : M unit :=
  s <- get ;;
  put_bookings (filter (fun b => negb (Booking.id b =? booking_id)) (bookings s)).

(** ** [sms_service.py] *)

Definition nl : string := String (ascii_of_nat 10) "".

(** [send_sms]: returns the parsed reply of the gateway, or [None] after
    printing why nothing was sent. It never raises. *)
Definition send_sms (e : env) (phone_number message : string)
    : M (option string) :=
  match SMSNOTIF_API_KEY e with
  | Some key =>
      if key =? "" then
        print "WARNING: SMSNOTIF_API_KEY is not set — skipping SMS notification." ;;;
        ret None
      else
        match post e key phone_number message with
        | Success (inl document) => ret (Some document)
        | Success (inr msg) =>
            print ("SMS send failed with unexpected error: " ++ msg) ;;;
            ret None
        | HTTPStatusError status_code text =>
            print ("SMS API HTTP error " ++ str_of_int status_code ++ ": " ++ text) ;;;
            ret None
        | TimeoutException =>
            print "SMS API request timed out after 15 seconds." ;;;
            ret None
        | OtherException msg =>
            print ("SMS send failed with unexpected error: " ++ msg) ;;;
            ret None
        end
  | None =>
      print "WARNING: SMSNOTIF_API_KEY is not set — skipping SMS notification." ;;;
      ret None
  end.

(** ** The authenticated caller *)

Module CurrentUser.
(** The dict [get_current_user] returns: the columns [id], [name], [email],
    [role] and [phone] of the caller's row. *)
Record t : Type := Make {
  id : string;
  name : string;
  email : string;
  role : string;
  phone : option string
}.

Definition of_row (r : User.row) : t :=
  Make (User.id r) (User.name r) (User.email r) (User.role r) (User.phone r).
End CurrentUser.

(** ** Responses *)

Module Listing.
(** A row of [GET /bookings]: the booking, the owner's name (staff view
    only) and the number of its table. *)
Record t : Type := Make {
  booking : Booking.row;
  user_name : option string;
  table_number : Z
}.
End Listing.

Inductive response : Type :=
| RMessage (message : string)
| RUser (u : CurrentUser.t)
| RUsers (l : list CurrentUser.t)
| RTable (t : Table.row)
| RTables (l : list Table.row)
| RBooking (b : Booking.row) (table_number : Z)
| RBookings (l : list Listing.t)
| RLogin (access_token token_type : string) (id name email role : string).

(** ** Booking ledger *)

(** The [WHERE] clause of [check_booking_conflict] for one stored row. *)
Definition conflicts (table_id date start_time end_time : string)
    (b : Booking.row) : bool :=
  (Booking.table_id b =? table_id)
  && (Booking.date b =? date)
  && (Booking.start_time b <? end_time)
  && (start_time <? Booking.end_time b)
  && negb (Booking.status b =? "cancelled").

(** [check_booking_conflict]: the id of a stored booking in conflict with the
    requested slot, if there is one. *)
Definition check_booking_conflict (table_id date start_time end_time : string)
    (exclude_booking_id : option string) : M (option string) :=
  let query := conflicts table_id date start_time end_time in
  let query :=
    match exclude_booking_id with
    | Some x =>
        if truthy exclude_booking_id
        then fun b => query b && negb (Booking.id b =? x)
        else query
    | None => query
    end in
  s <- get ;;
  ret (option_map Booking.id (find query (bookings s))).

(** [if user_row and user_row["phone"]: ...] *)
Definition when_phone (user_row : option User.row)
    (k : User.row -> string -> M unit) : M unit :=
  match user_row with
  | Some u =>
      match User.phone u with
      | Some p => if p =? "" then ret tt else k u p
      | None => ret tt
      end
  | None => ret tt
  end.

(** [POST /bookings] *)
Definition create_booking (e : env) (booking : BookingCreate.t)
    (user : CurrentUser.t) : M response :=
  table_row <- select_table (BookingCreate.table_id booking) ;;
  match table_row with
  | None => raise (HTTPException 404 "Table not found")
  | Some table_row =>
    if (BookingCreate.guests booking >? Table.capacity table_row)%Z then
      raise (HTTPException 400
        ("Table capacity is " ++ str_of_int (Table.capacity table_row)
         ++ ", but " ++ str_of_int (BookingCreate.guests booking)
         ++ " guests requested"))
    else
      conflict <- check_booking_conflict
                    (BookingCreate.table_id booking)
                    (BookingCreate.date booking)
                    (BookingCreate.start_time booking)
                    (BookingCreate.end_time booking)
                    None ;;
      match conflict with
      | Some conflict_id =>
          raise (HTTPException 409
            ("Time conflict with existing booking " ++ conflict_id))
      | None =>
        let booking_id := uuid4 e in
        let created_at := isoformat e (now e) in
        let row :=
          Booking.Row booking_id (CurrentUser.id user)
            (BookingCreate.table_id booking) (BookingCreate.date booking)
            (BookingCreate.start_time booking) (BookingCreate.end_time booking)
            (BookingCreate.guests booking) "confirmed" created_at in
        insert_booking row ;;;
        user_row <- select_user (CurrentUser.id user) ;;
        when_phone user_row (fun u phone =>
          try_except
            (send_sms e phone
               ("Hi " ++ User.name u ++ "! Your booking is confirmed." ++ nl
                ++ "Table: " ++ str_of_int (Table.number table_row) ++ nl
                ++ "Date: " ++ BookingCreate.date booking ++ nl
                ++ "Time: " ++ BookingCreate.start_time booking ++ " - "
                ++ BookingCreate.end_time booking ++ nl
                ++ "Guests: " ++ str_of_int (BookingCreate.guests booking) ++ nl
                ++ "Booking ID: " ++ booking_id ++ nl
                ++ "Thank you for choosing us!") ;;; ret tt)
            (fun ex =>
               print ("SMS notification failed on create: " ++ str_of_exn ex))) ;;;
        ret (RBooking row (Table.number table_row))
      end
  end.

(** The [fields] dict of [update_booking] before the status is looked at. *)
Definition present_fields (booking : BookingUpdate.t) : dict :=
  let fields := [] in
  let fields := set_if_present VStr "table_id" (BookingUpdate.table_id booking) fields in
  let fields := set_if_present VStr "date" (BookingUpdate.date booking) fields in
  let fields := set_if_present VStr "start_time" (BookingUpdate.start_time booking) fields in
  let fields := set_if_present VStr "end_time" (BookingUpdate.end_time booking) fields in
  let fields := set_if_present VInt "guests" (BookingUpdate.guests booking) fields in
  fields.

(** [user["role"] not in ("admin", "staff") and existing["user_id"] != user["id"]] *)
Definition not_permitted (user : CurrentUser.t) (existing : Booking.row) : bool :=
  negb (str_in (CurrentUser.role user) ["admin"; "staff"])
  && negb (Booking.user_id existing =? CurrentUser.id user).

(** [PUT /bookings/{booking_id}] *)
Definition update_booking (e : env) (booking_id : string)
    (booking : BookingUpdate.t) (user : CurrentUser.t) : M response :=
  existing <- select_booking booking_id ;;
  match existing with
  | None => raise (HTTPException 404 "Booking not found")
  | Some existing =>
    if not_permitted user existing then
      raise (HTTPException 403 "You can only update your own bookings")
    else
      fields <-
        (let fields := present_fields booking in
         match BookingUpdate.status booking with
         | Some st =>
             if negb (str_in st ["confirmed"; "cancelled"]) then
               raise (HTTPException 400
                 "Invalid status. Must be 'confirmed' or 'cancelled'")
             else ret (dict_set "status" (VStr st) fields)
         | None => ret fields
         end) ;;
      match fields with
      | [] => raise (HTTPException 400 "No fields to update")
      | _ :: _ =>
        let check_table := dict_get fields "table_id" (Booking.table_id existing) in
        let check_date := dict_get fields "date" (Booking.date existing) in
        let check_start := dict_get fields "start_time" (Booking.start_time existing) in
        let check_end := dict_get fields "end_time" (Booking.end_time existing) in
        (if existsb (fun k => dict_in k fields)
              ["table_id"; "date"; "start_time"; "end_time"]
         then
           conflict <- check_booking_conflict check_table check_date
                         check_start check_end (Some booking_id) ;;
           match conflict with
           | Some conflict_id =>
               raise (HTTPException 409
                 ("Time conflict with existing booking " ++ conflict_id))
           | None => ret tt
           end
         else ret tt) ;;;
        update_bookings fields booking_id ;;;
        let owner_id := Booking.user_id existing in
        user_row <- select_user owner_id ;;
        when_phone user_row (fun u phone =>
          try_except
            (send_sms e phone
               ("Hi " ++ User.name u ++ ", your booking " ++ booking_id
                ++ " has been updated." ++ nl
                ++ "Please check the app for the latest details.") ;;; ret tt)
            (fun ex =>
               print ("SMS notification failed on update: " ++ str_of_exn ex))) ;;;
        ret (RMessage ("Booking " ++ booking_id ++ " updated successfully"))
      end
  end.

(** [DELETE /bookings/{booking_id}] *)
Definition delete_booking (e : env) (booking_id : string)
    (user : CurrentUser.t) : M response :=
  existing <- select_booking booking_id ;;
  match existing with
  | None => raise (HTTPException 404 "Booking not found")
  | Some existing =>
    if not_permitted user existing then
      raise (HTTPException 403 "You can only delete your own bookings")
    else
      delete_bookings booking_id ;;;
      let owner_id := Booking.user_id existing in
      user_row <- select_user owner_id ;;
      when_phone user_row (fun u phone =>
        try_except
          (send_sms e phone
             ("Hi " ++ User.name u ++ ", your booking " ++ booking_id ++ " "
              ++ "on " ++ Booking.date existing ++ " ("
              ++ Booking.start_time existing ++ " - "
              ++ Booking.end_time existing ++ ") "
              ++ "has been cancelled.") ;;; ret tt)
          (fun ex =>
             print ("SMS notification failed on delete: " ++ str_of_exn ex))) ;;;
      ret (RMessage ("Booking " ++ booking_id ++ " cancelled successfully"))
  end.

(** ** Access control *)

Definition hash_password (e : env) (password salt : string) : string :=
  sha256_hexdigest e (password ++ salt).

Definition verify_password (e : env) (password salt password_hash : string)
    : bool :=
  hash_password e password salt =? password_hash.

(** [create_access_token({"user_id": ..., "role": ...})] with the default
    lifetime of 60 minutes. *)
Definition create_access_token (e : env) (user_id role : string) : string :=
  let expires_minutes := 60%Z in
  jwt_encode e (Claims (Some user_id) (Some role) (now e + expires_minutes)%Z).

(** [get_current_user]: the live row of the user the token names. *)
Definition get_current_user (e : env) (token : string) : M CurrentUser.t :=
  user_id <-
    match jwt_decode e token with
    | Payload payload =>
        match claim_user_id payload with
        | Some user_id =>
            if user_id =? ""
            then raise (HTTPException 401 "Invalid token payload")
            else ret user_id
        | None => raise (HTTPException 401 "Invalid token payload")
        end
    | ExpiredSignatureError => raise (HTTPException 401 "Token has expired")
    | InvalidTokenError => raise (HTTPException 401 "Invalid token")
    end ;;
  row <- select_user user_id ;;
  match row with
  | None => raise (HTTPException 401 "User not found")
  | Some row => ret (CurrentUser.of_row row)
  end.

(** [POST /login] *)
Definition login (e : env) (credentials : UserLogin.t) : M response :=
  row <- select_user_by_email (UserLogin.email credentials) ;;
  match row with
  | None => raise (HTTPException 401 "Invalid email or password")
  | Some row =>
      if negb (verify_password e (UserLogin.password credentials)
                 (User.salt row) (User.password_hash row))
      then raise (HTTPException 401 "Invalid email or password")
      else
        let token := create_access_token e (User.id row) (User.role row) in
        ret (RLogin token "bearer" (User.id row) (User.name row)
               (User.email row) (User.role row))
  end.

(** ** Users and tables *)

(** [ORDER BY]: insertion of each row into the sorted rest. *)
Fixpoint insert_by {A : Type} (le : A -> A -> bool) (x : A) (l : list A)
    : list A :=
  match l with
  | [] => [x]
  | y :: l' => if le x y then x :: l else y :: insert_by le x l'
  end.

Definition order_by {A : Type} (le : A -> A -> bool) (l : list A) : list A :=
  fold_right (insert_by le) [] l.

(** [GET /users/me] *)
Definition get_me (user : CurrentUser.t) : M response := ret (RUser user).

(** [GET /users] *)
Definition list_users (user : CurrentUser.t) : M response :=
  if negb (CurrentUser.role user =? "admin") then
    raise (HTTPException 403 "Admin access required")
  else
    s <- get ;;
    let rows := order_by (fun a b => User.name a <=? User.name b) (users s) in
    ret (RUsers (map CurrentUser.of_row rows)).

(** [PUT /users/{user_id}/role] *)
Definition update_user_role (user_id : string) (role : string)
    (user : CurrentUser.t) : M response :=
  if negb (CurrentUser.role user =? "admin") then
    raise (HTTPException 403 "Admin access required")
  else if negb (str_in role ["admin"; "staff"; "customer"]) then
    raise (HTTPException 400 "Invalid role. Must be admin, staff, or customer")
  else
    s <- get ;;
    put_users (map (fun u => if User.id u =? user_id
                             then User.set_role role u else u) (users s)) ;;;
    if negb (existsb (fun u => User.id u =? user_id) (users s)) then
      raise (HTTPException 404 "User not found")
    else
      ret (RMessage ("User " ++ user_id ++ " role updated to " ++ role)).

(** [GET /tables] *)
Definition list_tables (user : CurrentUser.t) : M response :=
  s <- get ;;
  ret (RTables (order_by (fun a b => (Table.number a <=? Table.number b)%Z)
                  (tables s))).

(** [POST /tables] *)
Definition create_table (e : env) (table : TableCreate.t)
    (user : CurrentUser.t) : M response :=
  if negb (str_in (CurrentUser.role user) ["admin"; "staff"]) then
    raise (HTTPException 403 "Admin or staff access required")
  else
    existing <- select_table_by_number (TableCreate.number table) ;;
    match existing with
    | Some _ => raise (HTTPException 409 "Table number already exists")
    | None =>
        let table_id := uuid4 e in
        let row := Table.Row table_id (TableCreate.number table)
                     (TableCreate.capacity table) (TableCreate.location table) in
        insert_table row ;;;
        ret (RTable row)
    end.

(** [PUT /tables/{table_id}] *)
Definition update_table (table_id : string) (table : TableUpdate.t)
    (user : CurrentUser.t) : M response :=
  if negb (str_in (CurrentUser.role user) ["admin"; "staff"]) then
    raise (HTTPException 403 "Admin or staff access required")
  else
    let fields := [] in
    let fields := set_if_present VInt "number" (TableUpdate.number table) fields in
    let fields := set_if_present VInt "capacity" (TableUpdate.capacity table) fields in
    let fields := set_if_present VStr "location" (TableUpdate.location table) fields in
    match fields with
    | [] => raise (HTTPException 400 "No fields to update")
    | _ :: _ =>
        s <- get ;;
        put_tables (map (fun t => if Table.id t =? table_id
                                  then fold_left Table.set_column fields t
                                  else t) (tables s)) ;;;
        if negb (existsb (fun t => Table.id t =? table_id) (tables s)) then
          raise (HTTPException 404 "Table not found")
        else
          ret (RMessage ("Table " ++ table_id ++ " updated successfully"))
    end.

(** [DELETE /tables/{table_id}] *)
Definition delete_table (table_id : string) (user : CurrentUser.t)
    : M response :=
  if negb (CurrentUser.role user =? "admin") then
    raise (HTTPException 403 "Admin access required")
  else
    s <- get ;;
    put_tables (filter (fun t => negb (Table.id t =? table_id)) (tables s)) ;;;
    if negb (existsb (fun t => Table.id t =? table_id) (tables s)) then
      raise (HTTPException 404 "Table not found")
    else
      ret (RMessage ("Table " ++ table_id ++ " deleted successfully")).

(** [ORDER BY b.date DESC, b.start_time] *)
Definition listing_le (a b : Listing.t) : bool :=
  let da := Booking.date (Listing.booking a) in
  let db := Booking.date (Listing.booking b) in
  (db <? da)
  || ((da =? db)
      && (Booking.start_time (Listing.booking a)
          <=? Booking.start_time (Listing.booking b))).

(** [GET /bookings] *)
Definition list_bookings (user : CurrentUser.t) : M response :=
  s <- get ;;
  let rows :=
    if str_in (CurrentUser.role user) ["admin"; "staff"] then
      flat_map (fun b =>
        flat_map (fun u =>
          map (fun t => Listing.Make b (Some (User.name u)) (Table.number t))
              (filter (fun t => Booking.table_id b =? Table.id t) (tables s)))
          (filter (fun u => Booking.user_id b =? User.id u) (users s)))
        (bookings s)
    else
      flat_map (fun b =>
        map (fun t => Listing.Make b None (Table.number t))
            (filter (fun t => Booking.table_id b =? Table.id t) (tables s)))
        (filter (fun b => Booking.user_id b =? CurrentUser.id user) (bookings s))
  in
  ret (RBookings (order_by listing_le rows)).

(** ** The routes that depend on [get_current_user] *)

Inductive request : Type :=
| GetMe
| ListUsers
| UpdateUserRole (user_id role : string)
| ListTables
| CreateTable (table : TableCreate.t)
| UpdateTable (table_id : string) (table : TableUpdate.t)
| DeleteTable (table_id : string)
| ListBookings
| CreateBooking (booking : BookingCreate.t)
| UpdateBooking (booking_id : string) (booking : BookingUpdate.t)
| DeleteBooking (booking_id : string).

Definition handler (e : env) (r : request) (user : CurrentUser.t) : M response :=
  match r with
  | GetMe => get_me user
  | ListUsers => list_users user
  | UpdateUserRole user_id role => update_user_role user_id role user
  | ListTables => list_tables user
  | CreateTable table => create_table e table user
  | UpdateTable table_id table => update_table table_id table user
  | DeleteTable table_id => delete_table table_id user
  | ListBookings => list_bookings user
  | CreateBooking booking => create_booking e booking user
  | UpdateBooking booking_id booking => update_booking e booking_id booking user
  | DeleteBooking booking_id => delete_booking e booking_id user
  end.

(** A route with [user=Depends(get_current_user)]: the bearer token is
    resolved first, and the handler receives the resulting user only. *)
Definition route (e : env) (token : string) (r : request) : M response :=
  user <- get_current_user e token ;; handler e r user.

(** ** Properties of the ledger, in the words of the specification *)

(** Overlap rule: a stored booking [b] conflicts with the slot
    [[start_time, end_time)] on [table_id] and [date] iff it is on that table
    and date, is not cancelled, starts before the slot ends and ends after
    the slot starts. *)
Definition overlap_rule (table_id date start_time end_time : string)
    (b : Booking.row) : Prop :=
  Booking.table_id b = table_id
  /\ Booking.date b = date
  /\ Booking.status b <> "cancelled"
  /\ (Booking.start_time b <? end_time) = true
  /\ (start_time <? Booking.end_time b) = true.

(** Two stored bookings double-book a table: neither is cancelled, they are
    on the same table and date, and each starts before the other ends. *)
Definition double_booked (a b : Booking.row) : bool :=
  negb (Booking.status a =? "cancelled")
  && negb (Booking.status b =? "cancelled")
  && (Booking.table_id a =? Booking.table_id b)
  && (Booking.date a =? Booking.date b)
  && (Booking.start_time a <? Booking.end_time b)
  && (Booking.start_time b <? Booking.end_time a).

(** No two stored bookings double-book a table. *)
Definition no_double_booking (l : list Booking.row) : Prop :=
  forall a b, In a l -> In b l -> Booking.id a <> Booking.id b ->
              double_booked a b = false.

(** The row [create_booking] stores for a request. *)
Definition new_booking (e : env) (booking : BookingCreate.t)
    (user : CurrentUser.t) : Booking.row :=
  Booking.Row (uuid4 e) (CurrentUser.id user)
    (BookingCreate.table_id booking) (BookingCreate.date booking)
    (BookingCreate.start_time booking) (BookingCreate.end_time booking)
    (BookingCreate.guests booking) "confirmed" (isoformat e (now e)).

(** A partial update merged over a stored row: a field that is present
    replaces the stored one, a field that is absent leaves it. *)
Definition merged (p : BookingUpdate.t) (b : Booking.row) : Booking.row :=
  let pick {A : Type} (x : option A) (old : A) : A :=
    match x with Some v => v | None => old end in
  Booking.Row (Booking.id b) (Booking.user_id b)
    (pick (BookingUpdate.table_id p) (Booking.table_id b))
    (pick (BookingUpdate.date p) (Booking.date b))
    (pick (BookingUpdate.start_time p) (Booking.start_time b))
    (pick (BookingUpdate.end_time p) (Booking.end_time b))
    (pick (BookingUpdate.guests p) (Booking.guests b))
    (pick (BookingUpdate.status p) (Booking.status b))
    (Booking.created_at b).

Definition present {A : Type} (x : option A) : bool :=
  match x with Some _ => true | None => false end.

(** One of table, date, start and end is present in the update. *)
Definition touches_slot (p : BookingUpdate.t) : bool :=
  present (BookingUpdate.table_id p) || present (BookingUpdate.date p)
  || present (BookingUpdate.start_time p) || present (BookingUpdate.end_time p).

(** No recognised field is present in the update. *)
Definition no_field (p : BookingUpdate.t) : bool :=
  negb (touches_slot p || present (BookingUpdate.guests p)
        || present (BookingUpdate.status p)).

(** The status of the update, if present, is one the ledger accepts. *)
Definition status_ok (p : BookingUpdate.t) : bool :=
  match BookingUpdate.status p with
  | Some st => str_in st ["confirmed"; "cancelled"]
  | None => true
  end.

(** The [fields] dict of [update_booking] once the status is accepted. *)
Definition built_fields (p : BookingUpdate.t) : dict :=
  match BookingUpdate.status p with
  | Some st => dict_set "status" (VStr st) (present_fields p)
  | None => present_fields p
  end.

(** A stored booking other than [exclude] conflicts with the slot of [m]. *)
Definition conflicts_excluding (exclude : string) (m b : Booking.row) : bool :=
  conflicts (Booking.table_id m) (Booking.date m)
            (Booking.start_time m) (Booking.end_time m) b
  && ((exclude =? "") || negb (Booking.id b =? exclude)).

(** Some stored booking other than [exclude] falls under the overlap rule
    for the slot of [m]. *)
Definition overlap_found (exclude : string) (m : Booking.row)
    (l : list Booking.row) : Prop :=
  exists b, In b l
            /\ Booking.id b <> exclude
            /\ overlap_rule (Booking.table_id m) (Booking.date m)
                 (Booking.start_time m) (Booking.end_time m) b.

(** The state [s] with [out] printed after what it had printed. *)
Definition log_more (s : state) (out : list string) : state :=
  State (users s) (tables s) (bookings s) (stdout s ++ out).

(** Two states hold the same store. *)
Definition same_store (s s' : state) : Prop :=
  users s = users s' /\ tables s = tables s' /\ bookings s = bookings s'.

(** Two runs of a handler end with the same result and the same store. *)
Definition same_result_and_store (x y : outcome response * state) : Prop :=
  fst x = fst y /\ same_store (snd x) (snd y).

(** The update gives a cancelled booking another status and leaves its table,
    date, start and end alone. *)
Definition reactivates (p : BookingUpdate.t) (existing : Booking.row) : bool :=
  negb (touches_slot p)
  && (Booking.status existing =? "cancelled")
  && match BookingUpdate.status p with
     | Some st => negb (st =? "cancelled")
     | None => false
     end.

(** What an update may not write: the identifier, the owner and the creation
    time of a booking; a booking with another identifier is left as it is. *)
Definition frame (booking_id : string) (b b' : Booking.row) : Prop :=
  Booking.id b' = Booking.id b
  /\ Booking.user_id b' = Booking.user_id b
  /\ Booking.created_at b' = Booking.created_at b
  /\ (Booking.id b <> booking_id -> b' = b).

(** The requester is neither admin nor staff, and does not own the booking. *)
Definition denied (user : CurrentUser.t) (existing : Booking.row) : Prop :=
  CurrentUser.role user <> "admin"
  /\ CurrentUser.role user <> "staff"
  /\ Booking.user_id existing <> CurrentUser.id user.

(** The update passes the gates before the overlap rule: the requester may
    write the booking, the status is acceptable, and a field is present. *)
Definition accepted (user : CurrentUser.t) (existing : Booking.row)
    (p : BookingUpdate.t) : Prop :=
  ~ denied user existing /\ status_ok p = true /\ no_field p = false.

(** The environment [e] with another API key and another gateway. *)
Definition with_sms (e : env) (key : option string)
    (gateway : string -> string -> string -> http_reply) : env :=
  Env (uuid4 e) (now e) (isoformat e) (sha256_hexdigest e)
      (jwt_encode e) (jwt_decode e) key gateway.

(** A sequence of requests, each by its caller in its environment, run from
    a state: the outcomes in order, and the final state. *)
Fixpoint run (steps : list (env * CurrentUser.t * request)) (s : state)
    : list (outcome response) * state :=
  match steps with
  | [] => ([], s)
  | (e, user, r) :: rest =>
      let (o, s') := handler e r user s in
      let (os, s'') := run rest s' in
      (o :: os, s'')
  end.

(** A request that cannot break the invariant: a creation mints an unused
    identifier; an update names its booking and does not re-activate it. *)
Definition safe (s : state) (step : env * CurrentUser.t * request) : Prop :=
  match step with
  | (e, _, CreateBooking _) => ~ In (uuid4 e) (map Booking.id (bookings s))
  | (_, _, UpdateBooking booking_id p) =>
      booking_id <> ""
      /\ forall existing,
           find (fun b => Booking.id b =? booking_id) (bookings s)
           = Some existing ->
           reactivates p existing = false
  | _ => True
  end.

(** Every request of the sequence is safe in the state it is run in. *)
Fixpoint all_safe (steps : list (env * CurrentUser.t * request)) (s : state)
    : Prop :=
  match steps with
  | [] => True
  | step :: rest => safe s step /\ all_safe rest (snd (run [step] s))
  end.

(** ** Sample data *)

Module Sample.
Definition alice : User.row :=
  User.Row "u-alice" "Alice" "alice@example.com" "h1" "s1" "customer"
           (Some "+6281234567890").
Definition bob : User.row :=
  User.Row "u-bob" "Bob" "bob@example.com" "h2" "s2" "customer" None.
Definition carol : User.row :=
  User.Row "u-carol" "Carol" "carol@example.com" "h3" "s3" "staff" None.

Definition T : Table.row := Table.Row "t-1" 7 4 (Some "Window side").

Definition B1 : Booking.row :=
  Booking.Row "b-1" "u-alice" "t-1" "2024-06-01" "18:00" "19:00" 2
              "confirmed" "2024-05-01T10:00:00+07:00".

Definition B2 : Booking.row :=
  Booking.Row "b-2" "u-bob" "t-1" "2024-06-01" "19:00" "20:00" 3
              "confirmed" "2024-05-02T09:30:00+07:00".

Definition store0 : state := State [alice; bob; carol] [T] [] [].
Definition store1 : state := State [alice; bob; carol] [T] [B1] [].
Definition store2 : state := State [alice; bob; carol] [T] [B1; B2] [].

(** A token library for the examples: a token is its claims, in text. *)
Definition decode (token : string) : decoded :=
  if token =? "alice-as-customer" then
    Payload (Claims (Some "u-alice") (Some "customer") 60)
  else if token =? "alice-as-admin" then
    Payload (Claims (Some "u-alice") (Some "admin") 60)
  else if token =? "expired" then ExpiredSignatureError
  else InvalidTokenError.

(** An environment whose gateway times out, minting the given UUID. *)
Definition world (uuid : string) : env :=
  Env uuid 0 (fun _ => "2024-05-01T12:00:00+07:00") (fun x => x)
      (fun c => match claim_user_id c with Some u => u | None => "" end)
      decode (Some "key") (fun _ _ _ => TimeoutException).

Definition empty_update : BookingUpdate.t :=
  BookingUpdate.Make None None None None None None.

Definition set_status (st : string) : BookingUpdate.t :=
  BookingUpdate.Make None None None None None (Some st).

Definition set_guests (n : Z) : BookingUpdate.t :=
  BookingUpdate.Make None None None None (Some n) None.

Definition move (start_time end_time : option string) : BookingUpdate.t :=
  BookingUpdate.Make None None start_time end_time None None.

Definition slot (start_time end_time : string) (guests : Z) : BookingCreate.t :=
  BookingCreate.Make "t-1" "2024-06-01" start_time end_time guests.
End Sample.

(** ** Registration *)

Module UserRegister.
Record t : Type := Make {
  name : string;
  email : string;
  password : string;
  phone : string
}.
End UserRegister.

Module Registered.
(** The body [register] answers with. *)
Record t : Type := Make {
  id : string;
  name : string;
  email : string;
  role : string;
  phone : string;
  message : string
}.
End Registered.

(** [INSERT INTO users ... VALUES ...] *)
Definition insert_user (u : User.row) : M unit :=
  s <- get ;; put_users (users s ++ [u]).

(** [POST /register]; [token_hex] is what [secrets.token_hex(16)] returns in
    this request. *)
Definition register (e : env) (token_hex : string) (user : UserRegister.t)
    : M Registered.t :=
  existing <- select_user_by_email (UserRegister.email user) ;;
  match existing with
  | Some _ => raise (HTTPException 409 "Email already registered")
  | None =>
      let user_id := uuid4 e in
      let salt := token_hex in
      let password_hash := hash_password e (UserRegister.password user) salt in
      insert_user
        (User.Row user_id (UserRegister.name user) (UserRegister.email user)
                  password_hash salt "customer"
                  (Some (UserRegister.phone user))) ;;;
      ret (Registered.Make user_id (UserRegister.name user)
             (UserRegister.email user) "customer" (UserRegister.phone user)
             "Registration successful")
  end.

(** ** [database.py]: bootstrap of the store *)

Module Database.

(** A row of [users] as [initialise_database] creates the table. *)
Record user_row : Type := UserRow {
  user_id : string;
  username : string;
  password_hash : string;
  salt : string;
  role : string;
  user_created_at : string
}.

(** A row of [tables] as [initialise_database] creates the table. *)
Record table_row : Type := TableRow {
  table_id : string;
  table_number : Z;
  capacity : Z;
  location : string;
  is_available : bool
}.

Record store : Type := Store {
  users : list user_row;
  tables : list table_row
}.

(** What a run draws from outside: the [n]-th [gen_random_uuid()] default,
    the [n]-th [secrets.token_hex(32)], the hash function, the clock. *)
Record oracle : Type := Oracle {
  gen_random_uuid : nat -> string;
  token_hex : nat -> string;
  sha256_hexdigest : string -> string;
  CURRENT_TIMESTAMP : string
}.

Definition hash_password (o : oracle) (password salt : string) : string :=
  sha256_hexdigest o (password ++ salt).

(** [seed_users]: username, password, role. *)
Definition seed_users : list (string * string * string) :=
  [("admin", "admin123", "admin"); ("staff1", "staff123", "staff")].

(** [seed_tables]: table_number, capacity, location. *)
Definition seed_tables : list (Z * Z * string) :=
  [(1, 2, "indoor"); (2, 4, "indoor"); (3, 4, "outdoor"); (4, 6, "outdoor");
   (5, 8, "private_room")]%Z.

(** [for user in seed_users: ...]; [uuids] and [salts] count the identifiers
    and the salts drawn so far. *)
Fixpoint seed_users_loop (o : oracle) (uuids salts : nat)
    (seeds : list (string * string * string)) (l : list user_row)
    : nat * list user_row :=
  match seeds with
  | [] => (uuids, l)
  | (name, password, user_role) :: rest =>
      match find (fun u => username u =? name) l with
      | Some _ => seed_users_loop o uuids salts rest l
      | None =>
          let new_salt := token_hex o salts in
          let row := UserRow (gen_random_uuid o uuids) name
                       (hash_password o password new_salt) new_salt
                       user_role (CURRENT_TIMESTAMP o) in
          seed_users_loop o (S uuids) (S salts) rest (l ++ [row])
      end
  end.

(** [for tbl in seed_tables: ...] *)
Fixpoint seed_tables_loop (o : oracle) (uuids : nat)
    (seeds : list (Z * Z * string)) (l : list table_row) : list table_row :=
  match seeds with
  | [] => l
  | (number, seats, place) :: rest =>
      match find (fun t => (table_number t =? number)%Z) l with
      | Some _ => seed_tables_loop o uuids rest l
      | None =>
          seed_tables_loop o (S uuids) rest
            (l ++ [TableRow (gen_random_uuid o uuids) number seats place true])
      end
  end.

(** [initialise_database], on the rows: the types and tables it creates
    [IF NOT EXISTS] hold no row of their own. *)
Definition initialise_database (o : oracle) (s : store) : store :=
  let (uuids, seeded_users) := seed_users_loop o 0 0 seed_users (users s) in
  Store seeded_users (seed_tables_loop o uuids seed_tables (tables s)).

End Database.

(** ** Properties of the other routes, in plain words *)

(** The route is open to an admin only. *)
Definition admin_only (r : request) : bool :=
  match r with
  | ListUsers | UpdateUserRole _ _ | DeleteTable _ => true
  | _ => false
  end.

(** The route is open to an admin or a member of staff only. *)
Definition staff_only (r : request) : bool :=
  match r with
  | CreateTable _ | UpdateTable _ _ => true
  | _ => false
  end.

(** A partial update merged over a stored table. *)
Definition merged_table (p : TableUpdate.t) (t : Table.row) : Table.row :=
  Table.Row (Table.id t)
    (match TableUpdate.number p with Some n => n | None => Table.number t end)
    (match TableUpdate.capacity p with Some n => n | None => Table.capacity t end)
    (match TableUpdate.location p with
     | Some l => Some l
     | None => Table.location t
     end).

(** Some field of the table update is present. *)
Definition table_field_present (p : TableUpdate.t) : bool :=
  present (TableUpdate.number p) || present (TableUpdate.capacity p)
  || present (TableUpdate.location p).

(** ** More sample data *)

Module Cases.
Definition dave : User.row :=
  User.Row "u-dave" "Dave" "dave@example.com" "hunter22s4" "s4" "customer"
           (Some "+6280000000004").
Definition erin : User.row :=
  User.Row "u-erin" "Erin" "erin@example.com" "h5" "s5" "admin" None.

Definition T2 : Table.row := Table.Row "t-2" 3 6 None.

Definition store : state :=
  State [dave; erin] [Sample.T; T2] [Sample.B1; Sample.B2] [].

(** A token library with one token, which names Dave. *)
Definition world (uuid : string) : env :=
  Env uuid 0 (fun _ => "2024-05-01T12:00:00+07:00") (fun x => x)
      (fun _ => "token-of-dave")
      (fun token =>
         if token =? "token-of-dave"
         then Payload (Claims (Some "u-dave") (Some "customer") 60)
         else InvalidTokenError)
      None (fun _ _ _ => OtherException "unreachable").

Definition fresh : Database.oracle :=
  Database.Oracle (fun n => ("id-" ++ str_of_int (Z.of_nat n))%string)
                  (fun n => ("salt-" ++ str_of_int (Z.of_nat n))%string)
                  (fun x => x) "2024-01-01 00:00:00".

Definition empty : Database.store := Database.Store [] [].
End Cases.

(** ** The monad and the notification step *)

Lemma log_more_nil (s : state) : log_more s [] = s.
Proof. destruct s; unfold log_more; simpl; now rewrite app_nil_r. Qed.

Lemma log_more_more (s : state) (a b : list string) :
  log_more (log_more s a) b = log_more s (a ++ b).
Proof. unfold log_more; simpl; now rewrite app_assoc. Qed.

Lemma same_store_log_more (s : state) (out : list string) :
  same_store s (log_more s out).
Proof. now repeat split. Qed.

(** [send_sms] returns whatever the gateway does, and only prints. *)
Lemma send_sms_returns (e : env) (phone_number message : string) (s : state) :
  exists r out, send_sms e phone_number message s = (Return r, log_more s out).
Proof.
  unfold send_sms.
  destruct (SMSNOTIF_API_KEY e) as [key|].
  - destruct (key =? "").
    + now exists None, ["WARNING: SMSNOTIF_API_KEY is not set — skipping SMS notification."].
    + destruct (post e key phone_number message) as [[document|msg]|code text| |msg].
      * exists (Some document), []. now rewrite log_more_nil.
      * now exists None, [("SMS send failed with unexpected error: " ++ msg)%string].
      * now exists None,
          [("SMS API HTTP error " ++ str_of_int code ++ ": " ++ text)%string].
      * now exists None, ["SMS API request timed out after 15 seconds."].
      * now exists None, [("SMS send failed with unexpected error: " ++ msg)%string].
  - now exists None, ["WARNING: SMSNOTIF_API_KEY is not set — skipping SMS notification."].
Qed.

(** The notification step of the three booking handlers returns, and only
    prints: whether the owner has a phone, whether the message was sent. *)
Lemma notify_returns (e : env) (user_row : option User.row)
    (message : User.row -> string) (label : string) (s : state) :
  exists out,
    when_phone user_row (fun u phone =>
      try_except (send_sms e phone (message u) ;;; ret tt)
                 (fun ex => print (label ++ str_of_exn ex))) s
    = (Return tt, log_more s out).
Proof.
  unfold when_phone.
  destruct user_row as [u|]; [|exists []; now rewrite log_more_nil].
  destruct (User.phone u) as [p|]; [|exists []; now rewrite log_more_nil].
  destruct (p =? ""); [exists []; now rewrite log_more_nil|].
  destruct (send_sms_returns e p (message u) s) as (r & out & H).
  exists out. unfold try_except, bind, ret. now rewrite H.
Qed.

(** ** The dynamically built update against the merged record *)

Ltac by_fields p :=
  destruct p as [[?|] [?|] [?|] [?|] [?|] [?|]]; reflexivity.

Lemma built_fields_nil (p : BookingUpdate.t) :
  match built_fields p with [] => true | _ :: _ => false end = no_field p.
Proof. by_fields p. Qed.

Lemma built_fields_touch (p : BookingUpdate.t) :
  existsb (fun k => dict_in k (built_fields p))
          ["table_id"; "date"; "start_time"; "end_time"]
  = touches_slot p.
Proof. by_fields p. Qed.

Lemma built_fields_table (p : BookingUpdate.t) (b : Booking.row) :
  dict_get (built_fields p) "table_id" (Booking.table_id b)
  = Booking.table_id (merged p b).
Proof. by_fields p. Qed.

Lemma built_fields_date (p : BookingUpdate.t) (b : Booking.row) :
  dict_get (built_fields p) "date" (Booking.date b)
  = Booking.date (merged p b).
Proof. by_fields p. Qed.

Lemma built_fields_start (p : BookingUpdate.t) (b : Booking.row) :
  dict_get (built_fields p) "start_time" (Booking.start_time b)
  = Booking.start_time (merged p b).
Proof. by_fields p. Qed.

Lemma built_fields_end (p : BookingUpdate.t) (b : Booking.row) :
  dict_get (built_fields p) "end_time" (Booking.end_time b)
  = Booking.end_time (merged p b).
Proof. by_fields p. Qed.

Lemma built_fields_set (p : BookingUpdate.t) (b : Booking.row) :
  fold_left Booking.set_column (built_fields p) b = merged p b.
Proof. destruct b. by_fields p. Qed.

Lemma updated_bookings_merged (p : BookingUpdate.t) (booking_id : string)
    (l : list Booking.row) :
  updated_bookings (built_fields p) booking_id l
  = map (fun b => if Booking.id b =? booking_id then merged p b else b) l.
Proof.
  unfold updated_bookings. apply map_ext. intro b.
  now rewrite built_fields_set.
Qed.

(** ** Running the statements and the handlers *)

Lemma bind_run {A B : Type} (m : M A) (k : A -> M B) (s : state) :
  bind m k s
  = match m s with
    | (Return a, s') => k a s'
    | (Raise e, s') => (Raise e, s')
    end.
Proof. reflexivity. Qed.

Lemma select_booking_run (booking_id : string) (s : state) :
  select_booking booking_id s
  = (Return (find (fun b => Booking.id b =? booking_id) (bookings s)), s).
Proof. reflexivity. Qed.

Lemma select_table_run (table_id : string) (s : state) :
  select_table table_id s
  = (Return (find (fun t => Table.id t =? table_id) (tables s)), s).
Proof. reflexivity. Qed.

Lemma select_user_run (user_id : string) (s : state) :
  select_user user_id s
  = (Return (find (fun u => User.id u =? user_id) (users s)), s).
Proof. reflexivity. Qed.

Lemma insert_booking_run (b : Booking.row) (s : state) :
  insert_booking b s
  = (Return tt, State (users s) (tables s) (bookings s ++ [b]) (stdout s)).
Proof. reflexivity. Qed.

Lemma update_bookings_run (fields : dict) (booking_id : string) (s : state) :
  update_bookings fields booking_id s
  = (Return tt, State (users s) (tables s)
                  (updated_bookings fields booking_id (bookings s)) (stdout s)).
Proof. reflexivity. Qed.

Lemma delete_bookings_run (booking_id : string) (s : state) :
  delete_bookings booking_id s
  = (Return tt,
     State (users s) (tables s)
       (filter (fun b => negb (Booking.id b =? booking_id)) (bookings s))
       (stdout s)).
Proof. reflexivity. Qed.

Lemma find_pointwise {A : Type} (f g : A -> bool) (l : list A) :
  (forall x, f x = g x) -> find f l = find g l.
Proof.
  intro H. induction l as [|x l IH]; simpl; [reflexivity|].
  now rewrite H, IH.
Qed.

(** The scan of [check_booking_conflict], as a predicate on stored rows. *)
Lemma check_booking_conflict_run (table_id date start_time end_time : string)
    (exclude : option string) (s : state) :
  check_booking_conflict table_id date start_time end_time exclude s
  = (Return (option_map Booking.id
       (find (fun b => conflicts table_id date start_time end_time b
                       && match exclude with
                          | Some x => (x =? "") || negb (Booking.id b =? x)
                          | None => true
                          end) (bookings s))), s).
Proof.
  unfold check_booking_conflict, bind, get, ret, truthy.
  do 3 f_equal.
  destruct exclude as [x|].
  - destruct (x =? ""); cbn [negb orb].
    + apply find_pointwise. intro b. now rewrite andb_true_r.
    + reflexivity.
  - apply find_pointwise. intro b. now rewrite andb_true_r.
Qed.

Lemma build_fields_run (p : BookingUpdate.t) (s : state) :
  match BookingUpdate.status p with
  | Some st =>
      if negb (str_in st ["confirmed"; "cancelled"]) then
        raise (HTTPException 400
          "Invalid status. Must be 'confirmed' or 'cancelled'")
      else ret (dict_set "status" (VStr st) (present_fields p))
  | None => ret (present_fields p)
  end s
  = if status_ok p
    then (Return (built_fields p), s)
    else (Raise (HTTPException 400
            "Invalid status. Must be 'confirmed' or 'cancelled'"), s).
Proof.
  unfold status_ok, built_fields.
  destruct (BookingUpdate.status p) as [st|]; [|reflexivity].
  now destruct (str_in st ["confirmed"; "cancelled"]).
Qed.

(** Finds the notification step in the goal and replaces it by its result. *)
Ltac run_notify out :=
  match goal with
  | |- context [when_phone ?ur
                  (fun u phone =>
                     try_except (send_sms ?e phone (@?msg u) ;;; ret tt)
                                (fun ex => print (?label ++ str_of_exn ex)))
                  ?s'] =>
      let H := fresh "Hnotify" in
      destruct (notify_returns e ur msg label s') as [out H];
      cbv beta in H; rewrite H; clear H
  end.

(** [update_booking], gate by gate, on the merged record. *)
Lemma update_booking_run (e : env) (booking_id : string)
    (p : BookingUpdate.t) (user : CurrentUser.t) (s : state) :
  exists out,
    update_booking e booking_id p user s
    = match find (fun b => Booking.id b =? booking_id) (bookings s) with
      | None => (Raise (HTTPException 404 "Booking not found"), s)
      | Some existing =>
        if not_permitted user existing then
          (Raise (HTTPException 403 "You can only update your own bookings"), s)
        else if negb (status_ok p) then
          (Raise (HTTPException 400
             "Invalid status. Must be 'confirmed' or 'cancelled'"), s)
        else if no_field p then
          (Raise (HTTPException 400 "No fields to update"), s)
        else
          match (if touches_slot p
                 then find (conflicts_excluding booking_id (merged p existing))
                           (bookings s)
                 else None) with
          | Some c =>
              (Raise (HTTPException 409
                 ("Time conflict with existing booking " ++ Booking.id c)), s)
          | None =>
              (Return (RMessage ("Booking " ++ booking_id
                                 ++ " updated successfully")),
               log_more
                 (State (users s) (tables s)
                    (map (fun b => if Booking.id b =? booking_id
                                   then merged p b else b) (bookings s))
                    (stdout s)) out)
          end
      end.
Proof.
  unfold update_booking. rewrite bind_run, select_booking_run.
  destruct (find _ (bookings s)) as [existing|]; [|now exists []].
  destruct (not_permitted user existing); [now exists []|].
  rewrite bind_run, build_fields_run.
  destruct (status_ok p); cbn [negb]; [|now exists []].
  rewrite <- built_fields_nil.
  destruct (built_fields p) as [|kv fields] eqn:Hf; [now exists []|].
  rewrite <- Hf; clear Hf kv fields.
  rewrite bind_run, built_fields_touch, built_fields_table, built_fields_date,
    built_fields_start, built_fields_end.
  destruct (touches_slot p).
  - rewrite bind_run, check_booking_conflict_run.
    fold (conflicts_excluding booking_id (merged p existing)).
    destruct (find _ (bookings s)) as [c|]; cbn [option_map];
      [now exists []|].
    unfold ret at 1.
    rewrite bind_run, update_bookings_run, bind_run, select_user_run, bind_run.
    run_notify out. exists out.
    now rewrite updated_bookings_merged.
  - unfold ret at 1.
    rewrite bind_run, update_bookings_run, bind_run, select_user_run, bind_run.
    run_notify out. exists out.
    now rewrite updated_bookings_merged.
Qed.

Lemma check_booking_conflict_all (table_id date start_time end_time : string)
    (s : state) :
  check_booking_conflict table_id date start_time end_time None s
  = (Return (option_map Booking.id
       (find (conflicts table_id date start_time end_time) (bookings s))), s).
Proof.
  rewrite check_booking_conflict_run. do 3 f_equal.
  apply find_pointwise. intro b. apply andb_true_r.
Qed.

(** [create_booking], gate by gate. *)
Lemma create_booking_run (e : env) (booking : BookingCreate.t)
    (user : CurrentUser.t) (s : state) :
  exists out,
    create_booking e booking user s
    = match find (fun t => Table.id t =? BookingCreate.table_id booking)
                 (tables s) with
      | None => (Raise (HTTPException 404 "Table not found"), s)
      | Some table_row =>
        if (BookingCreate.guests booking >? Table.capacity table_row)%Z then
          (Raise (HTTPException 400
             ("Table capacity is " ++ str_of_int (Table.capacity table_row)
              ++ ", but " ++ str_of_int (BookingCreate.guests booking)
              ++ " guests requested")), s)
        else
          match find (conflicts (BookingCreate.table_id booking)
                        (BookingCreate.date booking)
                        (BookingCreate.start_time booking)
                        (BookingCreate.end_time booking)) (bookings s) with
          | Some c =>
              (Raise (HTTPException 409
                 ("Time conflict with existing booking " ++ Booking.id c)), s)
          | None =>
              (Return (RBooking (new_booking e booking user)
                                (Table.number table_row)),
               log_more
                 (State (users s) (tables s)
                    (bookings s ++ [new_booking e booking user]) (stdout s))
                 out)
          end
      end.
Proof.
  unfold create_booking. rewrite bind_run, select_table_run.
  destruct (find _ (tables s)) as [table_row|]; [|now exists []].
  destruct (_ >? _)%Z; [now exists []|].
  rewrite bind_run, check_booking_conflict_all.
  destruct (find _ (bookings s)) as [c|]; cbn [option_map]; [now exists []|].
  rewrite bind_run, insert_booking_run, bind_run, select_user_run, bind_run.
  run_notify out. now exists out.
Qed.

(** [delete_booking], gate by gate. *)
Lemma delete_booking_run (e : env) (booking_id : string)
    (user : CurrentUser.t) (s : state) :
  exists out,
    delete_booking e booking_id user s
    = match find (fun b => Booking.id b =? booking_id) (bookings s) with
      | None => (Raise (HTTPException 404 "Booking not found"), s)
      | Some existing =>
        if not_permitted user existing then
          (Raise (HTTPException 403 "You can only delete your own bookings"), s)
        else
          (Return (RMessage ("Booking " ++ booking_id
                             ++ " cancelled successfully")),
           log_more
             (State (users s) (tables s)
                (filter (fun b => negb (Booking.id b =? booking_id))
                        (bookings s))
                (stdout s)) out)
      end.
Proof.
  unfold delete_booking. rewrite bind_run, select_booking_run.
  destruct (find _ (bookings s)) as [existing|]; [|now exists []].
  destruct (not_permitted user existing); [now exists []|].
  rewrite bind_run, delete_bookings_run, bind_run, select_user_run, bind_run.
  run_notify out. now exists out.
Qed.

(** ** The overlap rule *)

Lemma ltb_irrefl (x : string) : (x <? x) = false.
Proof.
  unfold String.ltb.
  pose proof (String.compare_antisym x x) as H.
  destruct (x ?= x); simpl in H; congruence.
Qed.

Lemma conflicts_iff (table_id date start_time end_time : string)
    (b : Booking.row) :
  conflicts table_id date start_time end_time b = true
  <-> overlap_rule table_id date start_time end_time b.
Proof.
  unfold conflicts, overlap_rule.
  rewrite !andb_true_iff, negb_true_iff, !String.eqb_eq, String.eqb_neq.
  tauto.
Qed.

Lemma conflicts_false_iff (table_id date start_time end_time : string)
    (b : Booking.row) :
  conflicts table_id date start_time end_time b = false
  <-> ~ overlap_rule table_id date start_time end_time b.
Proof.
  rewrite <- conflicts_iff. now destruct (conflicts _ _ _ _ b).
Qed.

Lemma find_all_false {A : Type} (f : A -> bool) (l : list A) :
  (forall x, In x l -> f x = false) -> find f l = None.
Proof.
  induction l as [|x l IH]; simpl; intro H; [reflexivity|].
  rewrite (H x) by now left. apply IH. intros y Hy. apply H. now right.
Qed.

Lemma find_is_some {A : Type} (f : A -> bool) (l : list A) (x : A) :
  In x l -> f x = true -> exists y, find f l = Some y.
Proof.
  intros Hin Hx. destruct (find f l) as [y|] eqn:Hf; [now exists y|].
  now rewrite (find_none _ _ Hf _ Hin) in Hx.
Qed.

(** ** Ownership *)

Lemma not_permitted_iff (user : CurrentUser.t) (existing : Booking.row) :
  not_permitted user existing = true <-> denied user existing.
Proof.
  unfold not_permitted, denied, str_in. cbn [existsb].
  rewrite andb_true_iff, !negb_true_iff, orb_false_r, orb_false_iff.
  rewrite !String.eqb_neq. tauto.
Qed.

(** ** Booking creation *)

(** A request on an existing table, within its capacity, that no stored
    booking conflicts with, succeeds and stores the new confirmed booking. *)
Lemma create_conflict_free
    (e : env) (booking : BookingCreate.t) (user : CurrentUser.t) (s : state)
    (table_row : Table.row)
    (Htable : find (fun t => Table.id t =? BookingCreate.table_id booking)
                   (tables s) = Some table_row)
    (Hcap : (BookingCreate.guests booking <= Table.capacity table_row)%Z)
    (Hfree : forall b, In b (bookings s) ->
               ~ overlap_rule (BookingCreate.table_id booking)
                   (BookingCreate.date booking)
                   (BookingCreate.start_time booking)
                   (BookingCreate.end_time booking) b) :
  exists out,
    create_booking e booking user s
    = (Return (RBooking (new_booking e booking user) (Table.number table_row)),
       log_more
         (State (users s) (tables s)
            (bookings s ++ [new_booking e booking user]) (stdout s)) out).
Proof.
  destruct (create_booking_run e booking user s) as [out Hrun].
  rewrite Htable in Hrun.
  replace (_ >? _)%Z with false in Hrun
    by (symmetry; rewrite Z.gtb_ltb; now apply Z.ltb_ge).
  rewrite find_all_false in Hrun; [eauto|].
  intros b Hin. apply conflicts_false_iff. now apply Hfree.
Qed.

(** C2. The conflict test of booking creation is the strict half-open
    intersection test. For a request on an existing table within its
    capacity: a stored booking conflicts with the requested slot iff it is on
    the same table and date, is not cancelled, starts before the requested end
    and ends after the requested start; a stored booking that ends where the
    request starts does not conflict; the request fails with a 409 and stores
    nothing iff some stored booking conflicts; and it succeeds, storing the
    new confirmed booking, iff none does. *)
Theorem create_conflict_is_strict_half_open_test
    (e : env) (booking : BookingCreate.t) (user : CurrentUser.t) (s : state)
    (table_row : Table.row)
    (Htable : find (fun t => Table.id t =? BookingCreate.table_id booking)
                   (tables s) = Some table_row)
    (Hcap : (BookingCreate.guests booking <= Table.capacity table_row)%Z) :
  (forall b,
      conflicts (BookingCreate.table_id booking) (BookingCreate.date booking)
        (BookingCreate.start_time booking) (BookingCreate.end_time booking) b
      = true
      <-> Booking.table_id b = BookingCreate.table_id booking
          /\ Booking.date b = BookingCreate.date booking
          /\ Booking.status b <> "cancelled"
          /\ (Booking.start_time b <? BookingCreate.end_time booking) = true
          /\ (BookingCreate.start_time booking <? Booking.end_time b) = true)
  /\ (forall b,
         Booking.end_time b = BookingCreate.start_time booking ->
         conflicts (BookingCreate.table_id booking) (BookingCreate.date booking)
           (BookingCreate.start_time booking) (BookingCreate.end_time booking) b
         = false)
  /\ ((exists b, In b (bookings s)
                 /\ overlap_rule (BookingCreate.table_id booking)
                      (BookingCreate.date booking)
                      (BookingCreate.start_time booking)
                      (BookingCreate.end_time booking) b)
      <-> exists detail,
            create_booking e booking user s
            = (Raise (HTTPException 409 detail), s))
  /\ ((forall b, In b (bookings s) ->
                 ~ overlap_rule (BookingCreate.table_id booking)
                     (BookingCreate.date booking)
                     (BookingCreate.start_time booking)
                     (BookingCreate.end_time booking) b)
      <-> exists out,
            create_booking e booking user s
            = (Return (RBooking (new_booking e booking user)
                                (Table.number table_row)),
               log_more
                 (State (users s) (tables s)
                    (bookings s ++ [new_booking e booking user]) (stdout s))
                 out)).
Proof.
  assert (Hle : (BookingCreate.guests booking >? Table.capacity table_row)%Z
                = false) by (rewrite Z.gtb_ltb; apply Z.ltb_ge; exact Hcap).
  destruct (create_booking_run e booking user s) as [out Hrun].
  rewrite Htable, Hle in Hrun.
  split; [|split; [|split]].
  - intro b. apply conflicts_iff.
  - intros b Hend. unfold conflicts.
    now rewrite Hend, ltb_irrefl, andb_false_r.
  - split.
    + intros (b & Hin & Hrule).
      destruct (find_is_some _ _ b Hin (proj2 (conflicts_iff _ _ _ _ b) Hrule))
        as [c Hc].
      rewrite Hc in Hrun. eauto.
    + intros [detail Hd]. rewrite Hd in Hrun.
      destruct (find _ (bookings s)) as [c|] eqn:Hc; [|discriminate].
      apply find_some in Hc. exists c. now rewrite <- conflicts_iff.
  - split.
    + intro Hnone. now apply create_conflict_free.
    + intros [out' Hd] b Hin. rewrite Hd in Hrun.
      destruct (find _ (bookings s)) as [c|] eqn:Hc; [discriminate|].
      apply conflicts_false_iff. exact (find_none _ _ Hc b Hin).
Qed.

(** X23. Creation enforces the capacity of the table: a request for more
    guests than the table seats fails with a 400 and stores nothing, whether
    or not its slot is free. *)
Lemma create_booking_over_capacity
    (e : env) (booking : BookingCreate.t) (user : CurrentUser.t) (s : state)
    (table_row : Table.row)
    (Htable : find (fun t => Table.id t =? BookingCreate.table_id booking)
                   (tables s) = Some table_row)
    (Hcap : (BookingCreate.guests booking > Table.capacity table_row)%Z) :
  exists detail,
    create_booking e booking user s = (Raise (HTTPException 400 detail), s).
Proof.
  destruct (create_booking_run e booking user s) as [out Hrun].
  rewrite Htable in Hrun.
  replace (_ >? _)%Z with true in Hrun; [eauto|].
  symmetry. now apply Z.gtb_gt.
Qed.

(** C3. The capacity of the table is not re-validated by [update_booking]:
    on table 7, which seats 4, the owner of a booking for 2 guests raises it
    to 10 guests; the update is accepted and the store then holds a booking
    of 10 guests on a table of capacity 4. *)
Theorem update_booking_ignores_capacity :
  update_booking (Sample.world "x") "b-1" (Sample.set_guests 10)
                 (CurrentUser.of_row Sample.alice) Sample.store1
  = (Return (RMessage "Booking b-1 updated successfully"),
     State [Sample.alice; Sample.bob; Sample.carol] [Sample.T]
           [Booking.Row "b-1" "u-alice" "t-1" "2024-06-01" "18:00" "19:00" 10
                        "confirmed" "2024-05-01T10:00:00+07:00"]
           ["SMS API request timed out after 15 seconds."])
  /\ Table.id Sample.T = "t-1"
  /\ (Table.capacity Sample.T < 10)%Z.
Proof. repeat split. Qed.

(** ** Ownership gate *)


(** ** Empty update *)

(** C6, as stated, fails for a customer who does not own the booking: the
    empty update of Alice's booking by Bob is refused with a 403, not with a
    400. *)
Lemma empty_update_by_stranger_is_forbidden :
  find (fun b => Booking.id b =? "b-1") (bookings Sample.store1)
  = Some Sample.B1
  /\ update_booking (Sample.world "x") "b-1" Sample.empty_update
                    (CurrentUser.of_row Sample.bob) Sample.store1
     = (Raise (HTTPException 403 "You can only update your own bookings"),
        Sample.store1)
  /\ ~ (exists detail s',
          update_booking (Sample.world "x") "b-1" Sample.empty_update
                         (CurrentUser.of_row Sample.bob) Sample.store1
          = (Raise (HTTPException 400 detail), s')).
Proof.
  repeat split. intros (detail & s' & H). discriminate H.
Qed.

(** C6, amended. For an existing booking and a requester who is admin, staff
    or its owner, [update_booking] with none of the six fields present fails
    with a 400 and leaves the state as it was. *)
Theorem empty_update_is_rejected_unchanged
    (e : env) (booking_id : string) (user : CurrentUser.t) (s : state)
    (existing : Booking.row)
    (Hex : find (fun b => Booking.id b =? booking_id) (bookings s)
           = Some existing)
    (Hperm : ~ denied user existing) :
  update_booking e booking_id
    (BookingUpdate.Make None None None None None None) user s
  = (Raise (HTTPException 400 "No fields to update"), s).
Proof.
  destruct (update_booking_run e booking_id
              (BookingUpdate.Make None None None None None None) user s)
    as [out Hu].
  rewrite Hex in Hu.
  rewrite <- not_permitted_iff in Hperm.
  destruct (not_permitted user existing); [now elim Hperm|].
  exact Hu.
Qed.

Lemma empty_update_is_rejected_unchanged_witness :
  update_booking (Sample.world "x") "b-1"
    (BookingUpdate.Make None None None None None None)
    (CurrentUser.of_row Sample.alice) Sample.store1
  = (Raise (HTTPException 400 "No fields to update"), Sample.store1).
Proof.
  apply (@empty_update_is_rejected_unchanged (Sample.world "x") "b-1"
           (CurrentUser.of_row Sample.alice) Sample.store1 Sample.B1).
  - reflexivity.
  - unfold denied. simpl. intros (_ & _ & H). now apply H.
Defined.

(** ** Frame of an update *)

Lemma Forall2_frame_same (booking_id : string) (l : list Booking.row) :
  Forall2 (frame booking_id) l l.
Proof. induction l; constructor; [now repeat split|assumption]. Qed.

Lemma Forall2_frame_merged (booking_id : string) (p : BookingUpdate.t)
    (l : list Booking.row) :
  Forall2 (frame booking_id) l
    (map (fun b => if Booking.id b =? booking_id then merged p b else b) l).
Proof.
  induction l as [|b l IH]; simpl; constructor; [|assumption].
  destruct (Booking.id b =? booking_id) eqn:Hb.
  - apply String.eqb_eq in Hb. repeat split. intro H. now elim H.
  - now repeat split.
Qed.

(** The [UPDATE] statement itself writes any column it is given: bound to
    [user_id], it hands the booking to another user. *)
Lemma update_statement_can_write_owner :
  updated_bookings [("user_id", VStr "u-bob")] "b-1" [Sample.B1]
  = [Booking.Row "b-1" "u-bob" "t-1" "2024-06-01" "18:00" "19:00" 2
                 "confirmed" "2024-05-01T10:00:00+07:00"].
Proof. reflexivity. Qed.

(** The keys [update_booking] binds are among the six fields of the payload:
    the identifier, the owner and the creation time are never bound. *)
Lemma built_fields_keys (p : BookingUpdate.t) (k : string) :
  dict_in k (built_fields p) = true ->
  In k ["table_id"; "date"; "start_time"; "end_time"; "guests"; "status"].
Proof.
  intro H. apply existsb_exists in H. destruct H as ([k' v] & Hin & Heq).
  apply String.eqb_eq in Heq. cbn [fst] in Heq. subst k'.
  destruct p as [[?|] [?|] [?|] [?|] [?|] [?|]]; cbn in Hin;
    repeat (destruct Hin as [Hin|Hin];
            [inversion Hin; subst; simpl; tauto|]);
    contradiction.
Qed.

(** The bookings [update_booking] leaves: those it found, or those with the
    update merged over the booking it names. *)
Lemma update_booking_writes
    (e : env) (booking_id : string) (p : BookingUpdate.t)
    (user : CurrentUser.t) (s : state) :
  (bookings (snd (update_booking e booking_id p user s)) = bookings s
   \/ bookings (snd (update_booking e booking_id p user s))
      = map (fun b => if Booking.id b =? booking_id then merged p b else b)
            (bookings s))
  /\ users (snd (update_booking e booking_id p user s)) = users s
  /\ tables (snd (update_booking e booking_id p user s)) = tables s.
Proof.
  destruct (update_booking_run e booking_id p user s) as [out Hu].
  rewrite Hu; clear Hu.
  destruct (find _ (bookings s)) as [existing|]; [|now repeat split; left].
  destruct (not_permitted user existing); [now repeat split; left|].
  destruct (negb (status_ok p)); [now repeat split; left|].
  destruct (no_field p); [now repeat split; left|].
  destruct (if touches_slot p then _ else _); [now repeat split; left|].
  now repeat split; right.
Qed.

(** C10. Whatever [update_booking] is given and however it ends, every stored
    booking keeps its identifier, its owner and its creation time, and a
    booking with another identifier is not written at all; users and tables
    are not written either. *)
Theorem update_booking_frame
    (e : env) (booking_id : string) (p : BookingUpdate.t)
    (user : CurrentUser.t) (s : state) :
  Forall2 (frame booking_id)
    (bookings s) (bookings (snd (update_booking e booking_id p user s)))
  /\ users (snd (update_booking e booking_id p user s)) = users s
  /\ tables (snd (update_booking e booking_id p user s)) = tables s.
Proof.
  destruct (update_booking_writes e booking_id p user s)
    as ([-> | ->] & Hu & Ht).
  - split; [apply Forall2_frame_same|now split].
  - split; [apply Forall2_frame_merged|now split].
Qed.

(** ** Partial update *)

Lemma conflicts_excluding_iff (exclude : string) (m b : Booking.row) :
  exclude <> "" ->
  conflicts_excluding exclude m b = true
  <-> Booking.id b <> exclude
      /\ overlap_rule (Booking.table_id m) (Booking.date m)
           (Booking.start_time m) (Booking.end_time m) b.
Proof.
  intro Hne. unfold conflicts_excluding.
  apply String.eqb_neq in Hne. rewrite Hne. cbn [orb].
  rewrite andb_true_iff, negb_true_iff, String.eqb_neq, conflicts_iff. tauto.
Qed.

Lemma scan_finds_iff (exclude : string) (m : Booking.row)
    (l : list Booking.row) :
  exclude <> "" ->
  (exists c, find (conflicts_excluding exclude m) l = Some c)
  <-> overlap_found exclude m l.
Proof.
  intro Hne. split.
  - intros [c Hc]. apply find_some in Hc. destruct Hc as [Hin Hc].
    exists c. split; [assumption|]. now apply conflicts_excluding_iff.
  - intros (b & Hin & Hb). apply (find_is_some _ _ b Hin).
    now apply conflicts_excluding_iff.
Qed.

(** A present field replaces the stored one; an absent field leaves it. *)
Lemma merged_fields (p : BookingUpdate.t) (b : Booking.row) :
  let pick {A : Type} (x : option A) (old : A) :=
    match x with Some v => v | None => old end in
  Booking.table_id (merged p b)
    = pick (BookingUpdate.table_id p) (Booking.table_id b)
  /\ Booking.date (merged p b)
     = pick (BookingUpdate.date p) (Booking.date b)
  /\ Booking.start_time (merged p b)
     = pick (BookingUpdate.start_time p) (Booking.start_time b)
  /\ Booking.end_time (merged p b)
     = pick (BookingUpdate.end_time p) (Booking.end_time b)
  /\ Booking.guests (merged p b)
     = pick (BookingUpdate.guests p) (Booking.guests b)
  /\ Booking.status (merged p b)
     = pick (BookingUpdate.status p) (Booking.status b)
  /\ Booking.id (merged p b) = Booking.id b
  /\ Booking.user_id (merged p b) = Booking.user_id b
  /\ Booking.created_at (merged p b) = Booking.created_at b.
Proof. now repeat split. Qed.

(** The five ways [update_booking] ends for an existing booking. *)
Lemma update_booking_cases
    (e : env) (booking_id : string) (p : BookingUpdate.t)
    (user : CurrentUser.t) (s : state) (existing : Booking.row)
    (Hid : booking_id <> "")
    (Hex : find (fun b => Booking.id b =? booking_id) (bookings s)
           = Some existing) :
  (denied user existing
   /\ update_booking e booking_id p user s
      = (Raise (HTTPException 403 "You can only update your own bookings"), s))
  \/ (~ denied user existing /\ status_ok p = false
      /\ update_booking e booking_id p user s
         = (Raise (HTTPException 400
              "Invalid status. Must be 'confirmed' or 'cancelled'"), s))
  \/ (~ denied user existing /\ status_ok p = true /\ no_field p = true
      /\ update_booking e booking_id p user s
         = (Raise (HTTPException 400 "No fields to update"), s))
  \/ (accepted user existing p /\ touches_slot p = true
      /\ overlap_found booking_id (merged p existing) (bookings s)
      /\ exists c,
           update_booking e booking_id p user s
           = (Raise (HTTPException 409
                ("Time conflict with existing booking " ++ Booking.id c)), s))
  \/ (accepted user existing p
      /\ ~ (touches_slot p = true
            /\ overlap_found booking_id (merged p existing) (bookings s))
      /\ exists out,
           update_booking e booking_id p user s
           = (Return (RMessage ("Booking " ++ booking_id
                                ++ " updated successfully")),
              log_more
                (State (users s) (tables s)
                   (map (fun b => if Booking.id b =? booking_id
                                  then merged p b else b) (bookings s))
                   (stdout s)) out)).
Proof.
  destruct (update_booking_run e booking_id p user s) as [out Hu].
  rewrite Hex in Hu. unfold accepted.
  rewrite <- (scan_finds_iff (merged p existing) (bookings s) Hid).
  rewrite <- not_permitted_iff.
  destruct (not_permitted user existing); [now left|].
  destruct (status_ok p); cbn [negb] in Hu;
    [|right; left; repeat split; try discriminate; assumption].
  destruct (no_field p);
    [right; right; left; repeat split; try discriminate; assumption|].
  right; right; right.
  destruct (touches_slot p).
  - destruct (find (conflicts_excluding _ _) (bookings s)) as [c|].
    + left. repeat split; try discriminate; eauto.
    + right. repeat split; try discriminate; eauto.
      intros (_ & [c Hc]). discriminate.
  - right. repeat split; try discriminate; eauto.
    intros (H & _). discriminate.
Qed.

(** C4. For an existing booking: [update_booking] fails with a 409, storing
    nothing, iff the update passes the earlier gates, one of table, date,
    start and end is present, and a stored booking other than this one falls
    under the overlap rule for the merged table, date, start and end; it
    succeeds iff the update passes the gates and that is not so, and then the
    stored booking is the merge of the present fields over the stored ones
    and nothing else in the store is written; and whenever it fails the state
    is left as it was. *)
Theorem update_merges_present_fields_and_rechecks_overlap
    (e : env) (booking_id : string) (p : BookingUpdate.t)
    (user : CurrentUser.t) (s : state) (existing : Booking.row)
    (Hid : booking_id <> "")
    (Hex : find (fun b => Booking.id b =? booking_id) (bookings s)
           = Some existing) :
  ((exists detail,
       update_booking e booking_id p user s
       = (Raise (HTTPException 409 detail), s))
   <-> accepted user existing p
       /\ touches_slot p = true
       /\ overlap_found booking_id (merged p existing) (bookings s))
  /\ ((exists out,
          update_booking e booking_id p user s
          = (Return (RMessage ("Booking " ++ booking_id
                               ++ " updated successfully")),
             log_more
               (State (users s) (tables s)
                  (map (fun b => if Booking.id b =? booking_id
                                 then merged p b else b) (bookings s))
                  (stdout s)) out))
      <-> accepted user existing p
          /\ ~ (touches_slot p = true
                /\ overlap_found booking_id (merged p existing) (bookings s)))
  /\ (forall r s', update_booking e booking_id p user s = (Return r, s') ->
        exists out,
          r = RMessage ("Booking " ++ booking_id ++ " updated successfully")
          /\ s' = log_more
                    (State (users s) (tables s)
                       (map (fun b => if Booking.id b =? booking_id
                                      then merged p b else b) (bookings s))
                       (stdout s)) out)
  /\ (forall x s', update_booking e booking_id p user s = (Raise x, s') ->
        s' = s).
Proof.
  destruct (update_booking_cases e p user s Hid Hex)
    as [(Hden & H)|[(Hden & Hst & H)|[(Hden & Hst & Hnf & H)
       |[(Hacc & Ht & Hov & c & H)|(Hacc & Hno & out & H)]]]];
    rewrite H; unfold accepted.
  all: (split; [split; [intros [? Heq]; try discriminate Heq | intro Hr]
       | split; [split; [intros [? Heq]; try discriminate Heq | intro Hr]
       | split; [intros r s' Heq; try discriminate Heq
                | intros x s' Heq; try discriminate Heq; now inversion Heq]]]).
  all: try tauto.
  all: try (rewrite Hst in Hr; intuition discriminate).
  all: try (rewrite Hnf in Hr; intuition discriminate).
  all: eauto.
  exists out. now inversion Heq.
Qed.

(** ** Rebooking a released slot *)

(** C7. A cancelled booking never takes part in the overlap scan; and when a
    booking [B] of an existing table is deleted by a requester who may delete
    it, a request for the table, date, start and end of [B], within the
    capacity of the table, and which no other stored booking conflicts with,
    succeeds and stores the new confirmed booking. *)
Theorem rebook_after_delete
    (e e' : env) (booking_id : string) (user requester : CurrentUser.t)
    (s : state) (B : Booking.row) (table_row : Table.row) (guests : Z)
    (HB : find (fun b => Booking.id b =? booking_id) (bookings s) = Some B)
    (Hperm : ~ denied user B)
    (Htable : find (fun t => Table.id t =? Booking.table_id B) (tables s)
              = Some table_row)
    (Hcap : (guests <= Table.capacity table_row)%Z)
    (Hothers : forall b, In b (bookings s) -> Booking.id b <> booking_id ->
                 ~ overlap_rule (Booking.table_id B) (Booking.date B)
                     (Booking.start_time B) (Booking.end_time B) b) :
  let again :=
    BookingCreate.Make (Booking.table_id B) (Booking.date B)
                       (Booking.start_time B) (Booking.end_time B) guests in
  (forall b table_id date start_time end_time,
      Booking.status b = "cancelled" ->
      conflicts table_id date start_time end_time b = false)
  /\ exists s1,
       delete_booking e booking_id user s
       = (Return (RMessage ("Booking " ++ booking_id
                            ++ " cancelled successfully")), s1)
       /\ (forall b, In b (bookings s1)
                     <-> In b (bookings s) /\ Booking.id b <> booking_id)
       /\ exists out,
            create_booking e' again requester s1
            = (Return (RBooking (new_booking e' again requester)
                                (Table.number table_row)),
               log_more
                 (State (users s1) (tables s1)
                    (bookings s1 ++ [new_booking e' again requester])
                    (stdout s1)) out).
Proof.
  intro again. split.
  - intros b t d st en Hc. unfold conflicts.
    now rewrite Hc, andb_false_r.
  - destruct (delete_booking_run e booking_id user s) as [out1 Hd].
    rewrite HB in Hd. rewrite <- not_permitted_iff in Hperm.
    destruct (not_permitted user B); [now elim Hperm|].
    eexists. split; [exact Hd|].
    assert (Hin : forall b,
               In b (filter (fun b => negb (Booking.id b =? booking_id))
                            (bookings s))
               <-> In b (bookings s) /\ Booking.id b <> booking_id).
    { intro b. now rewrite filter_In, negb_true_iff, String.eqb_neq. }
    split; [exact Hin|].
    apply (@create_conflict_free e' again requester _ table_row).
    + exact Htable.
    + exact Hcap.
    + intros b Hb. apply Hin in Hb. now apply Hothers.
Qed.

(** ** The caller's role *)

(** C8. Two tokens that decode to the same user identifier, whatever role
    each claims, resolve to the same caller, whose role is the one of the
    stored user row, and every route that depends on [get_current_user] ends
    with the same result and the same state for both. *)
Theorem role_comes_from_the_live_user_row
    (e : env) (token token' : string) (payload payload' : claims)
    (Hd : jwt_decode e token = Payload payload)
    (Hd' : jwt_decode e token' = Payload payload')
    (Huid : claim_user_id payload = claim_user_id payload') :
  (forall s, get_current_user e token s = get_current_user e token' s)
  /\ (forall r s, route e token r s = route e token' r s)
  /\ (forall s user s',
        get_current_user e token s = (Return user, s') ->
        exists user_id row,
          claim_user_id payload = Some user_id
          /\ find (fun u => User.id u =? user_id) (users s) = Some row
          /\ CurrentUser.role user = User.role row
          /\ user = CurrentUser.of_row row
          /\ s' = s).
Proof.
  assert (Hsame : forall s,
             get_current_user e token s = get_current_user e token' s).
  { intro s. unfold get_current_user. now rewrite Hd, Hd', Huid. }
  split; [exact Hsame|]. split.
  - intros r s. unfold route. now rewrite !bind_run, Hsame.
  - intros s user s'. unfold get_current_user. rewrite Hd, bind_run.
    destruct (claim_user_id payload) as [user_id|]; [|discriminate].
    destruct (user_id =? ""); [discriminate|].
    unfold ret at 1. rewrite bind_run, select_user_run.
    destruct (find _ (users s)) as [row|] eqn:Hrow; [|discriminate].
    intro H. inversion H; subst. now exists user_id, row.
Qed.

(** ** Notifications *)

(** C9. The result and the store of a booking creation, update or deletion
    do not depend on the API key or on what the SMS gateway does: with any two
    keys (or none) and any two gateways (answering, refusing, timing out or
    failing otherwise) the handler ends with the same result and the same
    users, tables and bookings. *)
Theorem notification_never_changes_result_or_store
    (e : env) (key key' : option string)
    (gateway gateway' : string -> string -> string -> http_reply)
    (user : CurrentUser.t) (s : state) :
  (forall booking,
      same_result_and_store
        (create_booking (with_sms e key gateway) booking user s)
        (create_booking (with_sms e key' gateway') booking user s))
  /\ (forall booking_id booking,
         same_result_and_store
           (update_booking (with_sms e key gateway) booking_id booking user s)
           (update_booking (with_sms e key' gateway') booking_id booking user s))
  /\ (forall booking_id,
         same_result_and_store
           (delete_booking (with_sms e key gateway) booking_id user s)
           (delete_booking (with_sms e key' gateway') booking_id user s)).
Proof.
  unfold same_result_and_store, same_store.
  split; [|split].
  - intro booking.
    destruct (create_booking_run (with_sms e key gateway) booking user s)
      as [out H].
    destruct (create_booking_run (with_sms e key' gateway') booking user s)
      as [out' H'].
    rewrite H, H'; clear H H'.
    destruct (find _ (tables s)) as [table_row|]; [|now repeat split].
    destruct (_ >? _)%Z; [now repeat split|].
    destruct (find _ (bookings s)); now repeat split.
  - intros booking_id booking.
    destruct (update_booking_run (with_sms e key gateway) booking_id booking
                user s) as [out H].
    destruct (update_booking_run (with_sms e key' gateway') booking_id booking
                user s) as [out' H'].
    rewrite H, H'; clear H H'.
    destruct (find _ (bookings s)) as [existing|]; [|now repeat split].
    destruct (not_permitted user existing); [now repeat split|].
    destruct (negb (status_ok booking)); [now repeat split|].
    destruct (no_field booking); [now repeat split|].
    destruct (if touches_slot booking then _ else _); now repeat split.
  - intro booking_id.
    destruct (delete_booking_run (with_sms e key gateway) booking_id user s)
      as [out H].
    destruct (delete_booking_run (with_sms e key' gateway') booking_id user s)
      as [out' H'].
    rewrite H, H'; clear H H'.
    destruct (find _ (bookings s)) as [existing|]; [|now repeat split].
    destruct (not_permitted user existing); now repeat split.
Qed.

(** ** Double booking *)

(** C1. The invariant does not survive the re-activation of a cancelled
    booking. From a store with one table and no booking: Alice books 18:00 to
    19:00; she cancels the booking by an update of its status; Bob books the
    same table, day and hours; Alice sets the status of her booking back to
    confirmed. All four requests succeed, and the store then holds two
    confirmed bookings of the same table, day and hours. *)
Theorem reactivation_double_books :
  let alice := CurrentUser.of_row Sample.alice in
  let bob := CurrentUser.of_row Sample.bob in
  let steps :=
    [ (Sample.world "b-1", alice, CreateBooking (Sample.slot "18:00" "19:00" 2));
      (Sample.world "x", alice, UpdateBooking "b-1" (Sample.set_status "cancelled"));
      (Sample.world "b-2", bob, CreateBooking (Sample.slot "18:00" "19:00" 2));
      (Sample.world "y", alice, UpdateBooking "b-1" (Sample.set_status "confirmed")) ] in
  let b1 := Booking.Row "b-1" "u-alice" "t-1" "2024-06-01" "18:00" "19:00" 2
                        "confirmed" "2024-05-01T12:00:00+07:00" in
  let b2 := Booking.Row "b-2" "u-bob" "t-1" "2024-06-01" "18:00" "19:00" 2
                        "confirmed" "2024-05-01T12:00:00+07:00" in
  no_double_booking (bookings Sample.store0)
  /\ fst (run steps Sample.store0)
     = [ Return (RBooking (Booking.Row "b-1" "u-alice" "t-1" "2024-06-01"
                             "18:00" "19:00" 2 "confirmed"
                             "2024-05-01T12:00:00+07:00") 7);
         Return (RMessage "Booking b-1 updated successfully");
         Return (RBooking b2 7);
         Return (RMessage "Booking b-1 updated successfully") ]
  /\ bookings (snd (run steps Sample.store0)) = [b1; b2]
  /\ double_booked b1 b2 = true
  /\ ~ no_double_booking (bookings (snd (run steps Sample.store0))).
Proof.
  intros alice bob steps b1 b2.
  split; [intros a b []|].
  split; [reflexivity|]. split; [reflexivity|]. split; [reflexivity|].
  intro H.
  assert (Hb : double_booked b1 b2 = false).
  { apply H; [now left|right; now left|discriminate]. }
  discriminate Hb.
Qed.

(** ** What does preserve the invariant *)

Lemma double_booked_sym (a b : Booking.row) :
  double_booked a b = double_booked b a.
Proof.
  unfold double_booked.
  rewrite (String.eqb_sym (Booking.table_id b)),
          (String.eqb_sym (Booking.date b)).
  destruct (Booking.table_id a =? Booking.table_id b),
           (Booking.date a =? Booking.date b),
           (Booking.start_time b <? Booking.end_time a),
           (Booking.start_time a <? Booking.end_time b),
           (Booking.status a =? "cancelled"),
           (Booking.status b =? "cancelled"); reflexivity.
Qed.

(** Double booking, through the scan of [check_booking_conflict]. *)
Lemma double_booked_scan (a b : Booking.row) :
  double_booked a b
  = conflicts (Booking.table_id a) (Booking.date a)
              (Booking.start_time a) (Booking.end_time a) b
    && negb (Booking.status a =? "cancelled").
Proof.
  unfold double_booked, conflicts.
  rewrite (String.eqb_sym (Booking.table_id b)),
          (String.eqb_sym (Booking.date b)).
  destruct (Booking.table_id a =? Booking.table_id b),
           (Booking.date a =? Booking.date b),
           (Booking.start_time b <? Booking.end_time a),
           (Booking.start_time a <? Booking.end_time b),
           (Booking.status a =? "cancelled"),
           (Booking.status b =? "cancelled"); reflexivity.
Qed.

(** A stored booking that the scan does not report does not double-book the
    table with the booking scanned for. *)
Lemma not_conflicting_not_double_booked (m b : Booking.row) :
  conflicts (Booking.table_id m) (Booking.date m)
            (Booking.start_time m) (Booking.end_time m) b = false ->
  double_booked m b = false.
Proof. rewrite double_booked_scan. now intros ->. Qed.

(** Creation keeps the invariant. *)
Lemma create_booking_keeps_invariant
    (e : env) (booking : BookingCreate.t) (user : CurrentUser.t) (s : state) :
  no_double_booking (bookings s) ->
  no_double_booking (bookings (snd (create_booking e booking user s))).
Proof.
  intro Hinv.
  destruct (create_booking_run e booking user s) as [out Hrun].
  rewrite Hrun; clear Hrun.
  destruct (find _ (tables s)) as [table_row|]; [|exact Hinv].
  destruct (_ >? _)%Z; [exact Hinv|].
  destruct (find _ (bookings s)) as [c|] eqn:Hscan; [exact Hinv|].
  cbn [snd log_more bookings].
  pose proof (find_none _ _ Hscan) as Hfree.
  intros a b Ha Hb Hab.
  apply in_app_iff in Ha. apply in_app_iff in Hb.
  destruct Ha as [Ha|[<-|[]]], Hb as [Hb|[<-|[]]].
  - now apply Hinv.
  - rewrite double_booked_sym.
    apply not_conflicting_not_double_booked. now apply Hfree.
  - apply not_conflicting_not_double_booked. now apply Hfree.
  - now elim Hab.
Qed.

(** Deletion keeps the invariant. *)
Lemma delete_booking_keeps_invariant
    (e : env) (booking_id : string) (user : CurrentUser.t) (s : state) :
  no_double_booking (bookings s) ->
  no_double_booking (bookings (snd (delete_booking e booking_id user s))).
Proof.
  intro Hinv.
  destruct (delete_booking_run e booking_id user s) as [out Hrun].
  rewrite Hrun; clear Hrun.
  destruct (find _ (bookings s)) as [existing|]; [|exact Hinv].
  destruct (not_permitted user existing); [exact Hinv|].
  cbn [snd log_more bookings].
  intros a b Ha Hb. apply filter_In in Ha, Hb. now apply Hinv.
Qed.

Lemma same_id_same_row (l : list Booking.row) (a b : Booking.row) :
  NoDup (map Booking.id l) -> In a l -> In b l ->
  Booking.id a = Booking.id b -> a = b.
Proof.
  induction l as [|x l IH]; simpl; [easy|].
  intros Hnd Ha Hb Hid. inversion Hnd as [|? ? Hx Hl]; subst.
  destruct Ha as [<-|Ha], Hb as [<-|Hb]; [reflexivity| | |now apply IH].
  - elim Hx. rewrite Hid. now apply in_map.
  - elim Hx. rewrite <- Hid. now apply in_map.
Qed.

Lemma untouched_slot (p : BookingUpdate.t) (b : Booking.row) :
  touches_slot p = false ->
  Booking.table_id (merged p b) = Booking.table_id b
  /\ Booking.date (merged p b) = Booking.date b
  /\ Booking.start_time (merged p b) = Booking.start_time b
  /\ Booking.end_time (merged p b) = Booking.end_time b.
Proof.
  destruct p as [[?|] [?|] [?|] [?|] g st]; try discriminate. now repeat split.
Qed.

(** The merged booking does not double-book with a booking that the stored
    one did not double-book with, unless the update re-activates it. *)
Lemma merged_keeps_apart (p : BookingUpdate.t) (existing b : Booking.row) :
  touches_slot p = false ->
  reactivates p existing = false ->
  double_booked existing b = false ->
  double_booked (merged p existing) b = false.
Proof.
  intros Ht Hre Hdb.
  destruct (untouched_slot p existing Ht) as (H1 & H2 & H3 & H4).
  rewrite double_booked_scan in *. rewrite H1, H2, H3, H4.
  destruct (conflicts _ _ _ _ b); [|reflexivity].
  cbn [andb] in *. apply negb_false_iff in Hdb.
  unfold reactivates in Hre. rewrite Ht, Hdb in Hre. cbn [negb andb] in Hre.
  unfold merged; cbn [Booking.status].
  destruct (BookingUpdate.status p) as [st|].
  - apply negb_false_iff in Hre. now rewrite Hre.
  - now rewrite Hdb.
Qed.

(** An update keeps the invariant unless it re-activates a cancelled booking
    without touching its table, date, start or end. *)
Lemma update_booking_keeps_invariant
    (e : env) (booking_id : string) (p : BookingUpdate.t)
    (user : CurrentUser.t) (s : state)
    (Hid : booking_id <> "")
    (Hnd : NoDup (map Booking.id (bookings s)))
    (Hre : forall existing,
        find (fun b => Booking.id b =? booking_id) (bookings s) = Some existing ->
        reactivates p existing = false) :
  no_double_booking (bookings s) ->
  no_double_booking (bookings (snd (update_booking e booking_id p user s))).
Proof.
  intro Hinv.
  destruct (update_booking_run e booking_id p user s) as [out Hrun].
  rewrite Hrun; clear Hrun.
  destruct (find _ (bookings s)) as [existing|] eqn:Hex; [|exact Hinv].
  specialize (Hre existing eq_refl).
  destruct (not_permitted user existing); [exact Hinv|].
  destruct (negb (status_ok p)); [exact Hinv|].
  destruct (no_field p); [exact Hinv|].
  destruct (if touches_slot p then _ else _) as [c|] eqn:Hscan; [exact Hinv|].
  cbn [snd log_more bookings].
  apply find_some in Hex. destruct Hex as [Hin Hbid].
  apply String.eqb_eq in Hbid.
  assert (Hkey : forall b, In b (bookings s) -> Booking.id b <> booking_id ->
                           double_booked (merged p existing) b = false).
  { intros b Hb Hne. destruct (touches_slot p) eqn:Ht.
    - apply not_conflicting_not_double_booked.
      pose proof (find_none _ _ Hscan b Hb) as Hc.
      unfold conflicts_excluding in Hc.
      apply String.eqb_neq in Hid, Hne. rewrite Hid, Hne in Hc.
      cbn [negb orb] in Hc. now rewrite andb_true_r in Hc.
    - apply merged_keeps_apart; [assumption|assumption|].
      apply Hinv; [assumption|assumption|congruence]. }
  intros a' b' Ha Hb Hab.
  apply in_map_iff in Ha, Hb.
  destruct Ha as (a & <- & Ha), Hb as (b & <- & Hb).
  destruct (Booking.id a =? booking_id) eqn:Ea.
  - apply String.eqb_eq in Ea.
    assert (a = existing)
      by (apply (@same_id_same_row (bookings s) a existing Hnd); congruence).
    subst a.
    destruct (Booking.id b =? booking_id) eqn:Eb.
    + apply String.eqb_eq in Eb.
      assert (b = existing)
        by (apply (@same_id_same_row (bookings s) b existing Hnd); congruence).
      subst b. now elim Hab.
    + apply Hkey; [assumption|now apply String.eqb_neq].
  - destruct (Booking.id b =? booking_id) eqn:Eb.
    + apply String.eqb_eq in Eb.
      assert (b = existing)
        by (apply (@same_id_same_row (bookings s) b existing Hnd); congruence).
      subst b. rewrite double_booked_sym.
      apply Hkey; [assumption|now apply String.eqb_neq].
    + now apply Hinv.
Qed.

Lemma run_cons (step : env * CurrentUser.t * request)
    (rest : list (env * CurrentUser.t * request)) (s : state) :
  snd (run (step :: rest) s) = snd (run rest (snd (run [step] s))).
Proof.
  destruct step as [[e user] r]. simpl.
  destruct (handler e r user s) as [o s']. simpl.
  now destruct (run rest s').
Qed.

Lemma run_one (e : env) (user : CurrentUser.t) (r : request) (s : state) :
  snd (run [(e, user, r)] s) = snd (handler e r user s).
Proof. simpl. now destruct (handler e r user s). Qed.

(** The requests on users and tables do not write the bookings. *)
Lemma other_requests_keep_bookings (e : env) (user : CurrentUser.t)
    (r : request) (s : state) :
  match r with
  | CreateBooking _ | UpdateBooking _ _ | DeleteBooking _ => True
  | _ => bookings (snd (handler e r user s)) = bookings s
  end.
Proof.
  destruct r; try exact I; cbn [handler].
  - reflexivity.
  - unfold list_users. now destruct (negb _).
  - unfold update_user_role. destruct (negb _); [reflexivity|].
    destruct (negb _); [reflexivity|].
    rewrite bind_run; cbn [get]. rewrite bind_run; cbn [put_users].
    now destruct (negb _).
  - reflexivity.
  - unfold create_table. destruct (negb _); [reflexivity|].
    rewrite bind_run. unfold select_table_by_number at 1.
    rewrite bind_run; cbn [get ret].
    now destruct (find _ (tables s)).
  - unfold update_table. destruct (negb _); [reflexivity|].
    destruct (set_if_present _ _ _ _); [reflexivity|].
    rewrite bind_run; cbn [get]. rewrite bind_run; cbn [put_tables].
    now destruct (negb _).
  - unfold delete_table. destruct (negb _); [reflexivity|].
    rewrite bind_run; cbn [get]. rewrite bind_run; cbn [put_tables].
    now destruct (negb _).
  - reflexivity.
Qed.

Lemma create_booking_ids (e : env) (booking : BookingCreate.t)
    (user : CurrentUser.t) (s : state) :
  bookings (snd (create_booking e booking user s)) = bookings s
  \/ map Booking.id (bookings (snd (create_booking e booking user s)))
     = map Booking.id (bookings s) ++ [uuid4 e].
Proof.
  destruct (create_booking_run e booking user s) as [out Hrun].
  rewrite Hrun; clear Hrun.
  destruct (find _ (tables s)) as [table_row|]; [|now left].
  destruct (_ >? _)%Z; [now left|].
  destruct (find _ (bookings s)); [now left|].
  right. cbn [snd log_more bookings]. now rewrite map_app.
Qed.

Lemma update_booking_ids (e : env) (booking_id : string)
    (p : BookingUpdate.t) (user : CurrentUser.t) (s : state) :
  map Booking.id (bookings (snd (update_booking e booking_id p user s)))
  = map Booking.id (bookings s).
Proof.
  destruct (update_booking_writes e booking_id p user s) as ([-> | ->] & _);
    [reflexivity|].
  rewrite map_map. apply map_ext. intro b.
  now destruct (Booking.id b =? booking_id).
Qed.

Lemma delete_booking_ids (e : env) (booking_id : string)
    (user : CurrentUser.t) (s : state) :
  NoDup (map Booking.id (bookings s)) ->
  NoDup (map Booking.id (bookings (snd (delete_booking e booking_id user s)))).
Proof.
  intro Hnd.
  destruct (delete_booking_run e booking_id user s) as [out Hrun].
  rewrite Hrun; clear Hrun.
  destruct (find _ (bookings s)) as [existing|]; [|exact Hnd].
  destruct (not_permitted user existing); [exact Hnd|].
  cbn [snd log_more bookings].
  induction (bookings s) as [|b l IH]; simpl; [constructor|].
  inversion Hnd as [|? ? Hb Hl]; subst.
  destruct (negb _); simpl; [|now apply IH].
  constructor; [|now apply IH].
  intro Hin. apply Hb. apply in_map_iff in Hin.
  destruct Hin as (x & Hx & Hin). apply filter_In in Hin.
  apply in_map_iff. exists x. tauto.
Qed.

(** X24. In every state reached by requests none of which re-activates a
    cancelled booking, no two bookings double-book a table. *)
Lemma no_double_booking_unless_reactivated
    (steps : list (env * CurrentUser.t * request)) (s : state) :
  NoDup (map Booking.id (bookings s)) ->
  no_double_booking (bookings s) ->
  all_safe steps s ->
  no_double_booking (bookings (snd (run steps s))).
Proof.
  revert s. induction steps as [|[[e user] r] rest IH]; intros s Hnd Hinv Hsafe.
  - exact Hinv.
  - rewrite run_cons. destruct Hsafe as [Hstep Hrest].
    apply IH; [| |exact Hrest]; rewrite run_one; clear IH Hrest.
    + pose proof (other_requests_keep_bookings e user r s) as Hother.
      destruct r; try (rewrite Hother; exact Hnd); cbn [handler].
      * destruct (create_booking_ids e booking user s) as [->| ->];
          [exact Hnd|].
        apply NoDup_app; [exact Hnd|repeat constructor; easy|].
        intros x Hx [<-|[]]. now apply Hstep.
      * now rewrite update_booking_ids.
      * now apply delete_booking_ids.
    + pose proof (other_requests_keep_bookings e user r s) as Hother.
      destruct r; try (rewrite Hother; exact Hinv); cbn [handler].
      * now apply create_booking_keeps_invariant.
      * destruct Hstep as [Hid Hre].
        now apply update_booking_keeps_invariant.
      * now apply delete_booking_keeps_invariant.
Qed.

(** ** The theorems at work on the sample data *)

(** Table 7 holds Alice's booking from 18:00 to 19:00. Bob's request for
    19:00 to 20:00 touches it and succeeds; Bob's request for 18:30 to 19:30
    overlaps it and fails with a 409. *)
Lemma create_conflict_is_strict_half_open_test_witness :
  (exists out,
      create_booking (Sample.world "b-2") (Sample.slot "19:00" "20:00" 2)
        (CurrentUser.of_row Sample.bob) Sample.store1
      = (Return (RBooking
                   (new_booking (Sample.world "b-2")
                      (Sample.slot "19:00" "20:00" 2)
                      (CurrentUser.of_row Sample.bob)) 7),
         log_more
           (State (users Sample.store1) (tables Sample.store1)
              (bookings Sample.store1
               ++ [new_booking (Sample.world "b-2")
                     (Sample.slot "19:00" "20:00" 2)
                     (CurrentUser.of_row Sample.bob)])
              (stdout Sample.store1)) out))
  /\ (exists detail,
         create_booking (Sample.world "b-2") (Sample.slot "18:30" "19:30" 2)
           (CurrentUser.of_row Sample.bob) Sample.store1
         = (Raise (HTTPException 409 detail), Sample.store1)).
Proof.
  split.
  - apply (proj1 (proj2 (proj2 (proj2
             (@create_conflict_is_strict_half_open_test
                (Sample.world "b-2") (Sample.slot "19:00" "20:00" 2)
                (CurrentUser.of_row Sample.bob) Sample.store1 Sample.T
                eq_refl ltac:(simpl; lia)))))).
    intros b [<-|[]] (_ & _ & _ & _ & H). discriminate H.
  - apply (proj1 (proj1 (proj2 (proj2
             (@create_conflict_is_strict_half_open_test
                (Sample.world "b-2") (Sample.slot "18:30" "19:30" 2)
                (CurrentUser.of_row Sample.bob) Sample.store1 Sample.T
                eq_refl ltac:(simpl; lia)))))).
    exists Sample.B1. split; [now left|].
    repeat split. discriminate.
Defined.

(** Bob moves his booking, 19:00 to 20:00, to start at 18:30: it would
    overlap Alice's, and the update fails with a 409. *)
Lemma update_merges_present_fields_and_rechecks_overlap_witness :
  exists detail,
    update_booking (Sample.world "x") "b-2"
      (Sample.move (Some "18:30") None)
      (CurrentUser.of_row Sample.bob) Sample.store2
    = (Raise (HTTPException 409 detail), Sample.store2).
Proof.
  apply (proj2 (proj1
           (@update_merges_present_fields_and_rechecks_overlap
              (Sample.world "x") "b-2" (Sample.move (Some "18:30") None)
              (CurrentUser.of_row Sample.bob) Sample.store2 Sample.B2
              ltac:(discriminate) eq_refl))).
  split; [|split].
  - split; [|split; reflexivity].
    intros (_ & _ & H). now apply H.
  - reflexivity.
  - exists Sample.B1. split; [now left|]. split; [discriminate|].
    repeat split. discriminate.
Defined.


(** Alice deletes her booking; Bob then books the same table, day and
    hours. *)
Lemma rebook_after_delete_witness :
  exists s1,
    delete_booking (Sample.world "x") "b-1"
      (CurrentUser.of_row Sample.alice) Sample.store1
    = (Return (RMessage "Booking b-1 cancelled successfully"), s1)
    /\ exists r s2,
         create_booking (Sample.world "b-3") (Sample.slot "18:00" "19:00" 4)
           (CurrentUser.of_row Sample.bob) s1
         = (Return r, s2).
Proof.
  destruct (@rebook_after_delete (Sample.world "x") (Sample.world "b-3") "b-1"
              (CurrentUser.of_row Sample.alice) (CurrentUser.of_row Sample.bob)
              Sample.store1 Sample.B1 Sample.T 4 eq_refl
              ltac:(intros (_ & _ & H); now apply H) eq_refl
              ltac:(simpl; lia)
              ltac:(intros b [<-|[]] H; now elim H))
    as (_ & s1 & Hdel & _ & out & Hnew).
  exists s1. split; [exact Hdel|]. eauto.
Defined.

(** A token of Alice that claims the role admin opens nothing that her token
    as a customer does not. *)
Lemma role_comes_from_the_live_user_row_witness :
  route (Sample.world "x") "alice-as-admin" ListUsers Sample.store1
  = route (Sample.world "x") "alice-as-customer" ListUsers Sample.store1.
Proof.
  apply (proj1 (proj2
           (@role_comes_from_the_live_user_row (Sample.world "x")
              "alice-as-admin" "alice-as-customer"
              (Claims (Some "u-alice") (Some "admin") 60)
              (Claims (Some "u-alice") (Some "customer") 60)
              eq_refl eq_refl eq_refl))).
Defined.

(** * The rest of the routes *)

(** ** Tokens, login and registration *)

Lemma select_user_by_email_run (email : string) (s : state) :
  select_user_by_email email s
  = (Return (find (fun u => User.email u =? email) (users s)), s).
Proof. reflexivity. Qed.

(** X1. A route that depends on [get_current_user] answers 401 and leaves
    the state as it was, whatever the request, when the token has expired,
    is invalid, names no user, or names a user that is not stored. *)
Theorem route_rejects_bad_token
    (e : env) (token : string) (r : request) (s : state) :
  (jwt_decode e token = ExpiredSignatureError ->
   route e token r s = (Raise (HTTPException 401 "Token has expired"), s))
  /\ (jwt_decode e token = InvalidTokenError ->
      route e token r s = (Raise (HTTPException 401 "Invalid token"), s))
  /\ (forall payload,
         jwt_decode e token = Payload payload ->
         claim_user_id payload = None \/ claim_user_id payload = Some "" ->
         route e token r s
         = (Raise (HTTPException 401 "Invalid token payload"), s))
  /\ (forall payload user_id,
         jwt_decode e token = Payload payload ->
         claim_user_id payload = Some user_id ->
         user_id <> "" ->
         find (fun u => User.id u =? user_id) (users s) = None ->
         route e token r s = (Raise (HTTPException 401 "User not found"), s)).
Proof.
  unfold route. rewrite bind_run. unfold get_current_user. rewrite bind_run.
  split; [|split; [|split]].
  - now intros ->.
  - now intros ->.
  - intros payload -> [-> | ->]; reflexivity.
  - intros payload user_id -> -> Hne Hnone.
    apply String.eqb_neq in Hne. rewrite Hne.
    unfold ret at 1. now rewrite bind_run, select_user_run, Hnone.
Qed.

(** What a successful [login] has found. *)
Lemma login_success_row
    (e : env) (credentials : UserLogin.t) (s : state) (r : response) :
  fst (login e credentials s) = Return r ->
  exists row,
    find (fun u => User.email u =? UserLogin.email credentials) (users s)
    = Some row
    /\ sha256_hexdigest e (UserLogin.password credentials ++ User.salt row)
       = User.password_hash row
    /\ r = RLogin
             (jwt_encode e
                (Claims (Some (User.id row)) (Some (User.role row))
                        (now e + 60)%Z))
             "bearer" (User.id row) (User.name row)
             (User.email row) (User.role row).
Proof.
  unfold login. rewrite bind_run, select_user_by_email_run.
  destruct (find _ (users s)) as [row|]; [|discriminate].
  unfold verify_password, hash_password.
  destruct (_ =? User.password_hash row) eqn:Hh; cbn [negb]; [|discriminate].
  apply String.eqb_eq in Hh. intro H. inversion H. now exists row.
Qed.

(** X2. [login] never writes the state; when it fails, it fails with the same
    401 whether the email is unknown or the password is wrong; and it
    succeeds exactly when the hash of the password with the stored salt is
    the stored hash, answering with a token for the identifier and the role
    of the stored user. *)
Theorem login_outcomes
    (e : env) (credentials : UserLogin.t) (s : state) :
  snd (login e credentials s) = s
  /\ (forall x, fst (login e credentials s) = Raise x ->
                x = HTTPException 401 "Invalid email or password")
  /\ (forall r,
         fst (login e credentials s) = Return r
         <-> exists row,
               find (fun u => User.email u =? UserLogin.email credentials)
                    (users s) = Some row
               /\ sha256_hexdigest e
                    (UserLogin.password credentials ++ User.salt row)
                  = User.password_hash row
               /\ r = RLogin
                        (jwt_encode e
                           (Claims (Some (User.id row)) (Some (User.role row))
                                   (now e + 60)%Z))
                        "bearer" (User.id row) (User.name row)
                        (User.email row) (User.role row)).
Proof.
  unfold login. rewrite bind_run, select_user_by_email_run.
  destruct (find _ (users s)) as [row|].
  - unfold verify_password, hash_password.
    destruct (_ =? User.password_hash row) eqn:Hh; cbn [negb].
    + apply String.eqb_eq in Hh.
      split; [reflexivity|]. split; [discriminate|].
      intro r. split.
      * intro H. inversion H. now exists row.
      * intros (row' & Hrow & _ & ->). now inversion Hrow.
    + apply String.eqb_neq in Hh.
      split; [reflexivity|]. split; [intros x H; now inversion H|].
      intro r. split; [discriminate|].
      intros (row' & Hrow & Hsha & _). inversion Hrow; subst. now elim Hh.
  - split; [reflexivity|]. split; [intros x H; now inversion H|].
    intro r. split; [discriminate|]. intros (row & Hrow & _). discriminate.
Qed.

Lemma find_first_of_unique (l : list User.row) (row : User.row) :
  NoDup (map User.id l) -> In row l ->
  find (fun u => User.id u =? User.id row) l = Some row.
Proof.
  induction l as [|x l IH]; simpl; [easy|].
  intros Hnd Hin. inversion Hnd as [|? ? Hx Hl]; subst.
  destruct Hin as [->|Hin].
  - now rewrite String.eqb_refl.
  - destruct (User.id x =? User.id row) eqn:Hid; [|now apply IH].
    apply String.eqb_eq in Hid. elim Hx. rewrite Hid. now apply in_map.
Qed.

(** X3. The token [login] answers with resolves to the user that logged in:
    when the token library decodes what it encoded, user identifiers are
    unique and the identifier is not empty, [get_current_user] on that token
    returns the stored user with the email of the credentials. *)
Theorem login_token_resolves
    (e : env) (credentials : UserLogin.t) (s : state)
    (token id name email role : string)
    (Hlogin : login e credentials s
              = (Return (RLogin token "bearer" id name email role), s))
    (Hjwt : jwt_decode e token
            = Payload (Claims (Some id) (Some role) (now e + 60)%Z))
    (Hid : id <> "")
    (Hnd : NoDup (map User.id (users s))) :
  exists row,
    In row (users s)
    /\ User.email row = UserLogin.email credentials
    /\ User.id row = id
    /\ get_current_user e token s = (Return (CurrentUser.of_row row), s).
Proof.
  destruct (login_success_row e credentials s (f_equal fst Hlogin))
    as (row & Hrow & _ & Hr).
  inversion Hr; subst. apply find_some in Hrow. destruct Hrow as [Hin Hemail].
  apply String.eqb_eq in Hemail.
  exists row. repeat split; try assumption.
  unfold get_current_user. rewrite Hjwt, bind_run. cbn [claim_user_id].
  apply String.eqb_neq in Hid. rewrite Hid. unfold ret at 1.
  rewrite bind_run, select_user_run,
    (@find_first_of_unique (users s) row Hnd Hin).
  reflexivity.
Qed.

Lemma login_token_resolves_witness :
  exists row,
    In row (users Cases.store)
    /\ User.email row = "dave@example.com"
    /\ User.id row = "u-dave"
    /\ get_current_user (Cases.world "x") "token-of-dave" Cases.store
       = (Return (CurrentUser.of_row row), Cases.store).
Proof.
  apply (@login_token_resolves (Cases.world "x")
           (UserLogin.Make "dave@example.com" "hunter22") Cases.store
           "token-of-dave" "u-dave" "Dave" "dave@example.com" "customer").
  - reflexivity.
  - reflexivity.
  - discriminate.
  - repeat constructor; simpl; intuition discriminate.
Defined.

Lemma find_app_none {A : Type} (f : A -> bool) (l : list A) (x : A) :
  find f l = None -> find f (l ++ [x]) = if f x then Some x else None.
Proof.
  induction l as [|y l IH]; simpl; [reflexivity|].
  destruct (f y); [discriminate|exact IH].
Qed.

(** X4. [register] keeps the emails of the stored users pairwise different,
    and an email that is already stored is refused with a 409 that writes
    nothing. *)
Theorem register_keeps_emails_unique
    (e : env) (token_hex : string) (user : UserRegister.t) (s : state)
    (Hnd : NoDup (map User.email (users s))) :
  NoDup (map User.email (users (snd (register e token_hex user s))))
  /\ (forall row,
         In row (users s) ->
         User.email row = UserRegister.email user ->
         register e token_hex user s
         = (Raise (HTTPException 409 "Email already registered"), s)).
Proof.
  unfold register. rewrite bind_run, select_user_by_email_run.
  destruct (find _ (users s)) as [found|] eqn:Hfind.
  - split; [exact Hnd|reflexivity].
  - split.
    + cbn. rewrite map_app. apply NoDup_app; [exact Hnd|repeat constructor; easy|].
      intros x Hx [<-|[]]. apply in_map_iff in Hx.
      destruct Hx as (u & Hu & Hin).
      pose proof (find_none _ _ Hfind u Hin) as Hne.
      apply String.eqb_neq in Hne. now apply Hne.
    + intros row Hin Hemail.
      pose proof (find_none _ _ Hfind row Hin) as Hne.
      apply String.eqb_neq in Hne. now elim Hne.
Qed.

Lemma register_keeps_emails_unique_witness :
  NoDup (map User.email
           (users (snd (register (Cases.world "u-new") "salt"
                          (UserRegister.Make "Fay" "fay@example.com" "secret1"
                                             "+6280000000006")
                          Cases.store))))
  /\ register (Cases.world "u-new") "salt"
       (UserRegister.Make "Dave again" "dave@example.com" "secret1"
                          "+6280000000007")
       Cases.store
     = (Raise (HTTPException 409 "Email already registered"), Cases.store).
Proof.
  assert (Hnd : NoDup (map User.email (users Cases.store)))
    by (repeat constructor; simpl; intuition discriminate).
  split.
  - exact (proj1 (@register_keeps_emails_unique (Cases.world "u-new") "salt"
                    (UserRegister.Make "Fay" "fay@example.com" "secret1"
                                       "+6280000000006")
                    Cases.store Hnd)).
  - apply (proj2 (@register_keeps_emails_unique (Cases.world "u-new") "salt"
                    (UserRegister.Make "Dave again" "dave@example.com"
                                       "secret1" "+6280000000007")
                    Cases.store Hnd) Cases.dave); [now left|reflexivity].
Defined.

(** X5. A visitor whose email is not stored yet registers as a customer,
    whatever the request says, with the hash of the password and the fresh
    salt; nothing else in the store is written; and a login with the same
    email and password then succeeds for that new user. *)
Theorem register_then_login
    (e e' : env) (token_hex : string) (user : UserRegister.t) (s : state)
    (Hfree : find (fun u => User.email u =? UserRegister.email user) (users s)
             = None)
    (Hsha : sha256_hexdigest e' (UserRegister.password user ++ token_hex)
            = sha256_hexdigest e (UserRegister.password user ++ token_hex)) :
  let row :=
    User.Row (uuid4 e) (UserRegister.name user) (UserRegister.email user)
      (sha256_hexdigest e (UserRegister.password user ++ token_hex))
      token_hex "customer" (Some (UserRegister.phone user)) in
  let s1 := State (users s ++ [row]) (tables s) (bookings s) (stdout s) in
  register e token_hex user s
  = (Return (Registered.Make (uuid4 e) (UserRegister.name user)
               (UserRegister.email user) "customer" (UserRegister.phone user)
               "Registration successful"), s1)
  /\ login e' (UserLogin.Make (UserRegister.email user)
                              (UserRegister.password user)) s1
     = (Return (RLogin (create_access_token e' (uuid4 e) "customer") "bearer"
                  (uuid4 e) (UserRegister.name user) (UserRegister.email user)
                  "customer"), s1).
Proof.
  intros row s1. subst s1. split.
  - unfold register. now rewrite bind_run, select_user_by_email_run, Hfree.
  - unfold login. rewrite bind_run, select_user_by_email_run.
    cbn [users UserLogin.email UserLogin.password].
    rewrite (find_app_none _ _ row Hfree). subst row.
    cbn [User.email]. rewrite String.eqb_refl.
    unfold verify_password, hash_password.
    cbn [User.salt User.password_hash User.id User.name User.email User.role].
    now rewrite Hsha, String.eqb_refl.
Qed.

Lemma register_then_login_witness :
  exists s1 reg token,
    register (Cases.world "u-new") "salt"
      (UserRegister.Make "Fay" "fay@example.com" "secret1" "+6280000000006")
      Cases.store
    = (Return reg, s1)
    /\ Registered.role reg = "customer"
    /\ login (Cases.world "x") (UserLogin.Make "fay@example.com" "secret1") s1
       = (Return (RLogin token "bearer" "u-new" "Fay" "fay@example.com"
                    "customer"), s1).
Proof.
  destruct (@register_then_login (Cases.world "u-new") (Cases.world "x") "salt"
              (UserRegister.Make "Fay" "fay@example.com" "secret1"
                                 "+6280000000006")
              Cases.store eq_refl eq_refl) as [Hreg Hlogin].
  eexists. eexists. eexists.
  split; [exact Hreg|]. split; [reflexivity|exact Hlogin].
Defined.

(** ** Roles *)

Lemma map_untouched {A : Type} (hit : A -> bool) (f : A -> A) (l : list A) :
  existsb hit l = false -> map (fun x => if hit x then f x else x) l = l.
Proof.
  induction l as [|x l IH]; simpl; [reflexivity|].
  intro H. apply orb_false_iff in H. destruct H as [Hx Hl].
  now rewrite Hx, IH.
Qed.

Lemma state_eta (s : state) :
  State (users s) (tables s) (bookings s) (stdout s) = s.
Proof. now destruct s. Qed.

(** An admin gives a stored user one of the three roles. *)
Lemma update_user_role_success
    (user_id role : string) (user : CurrentUser.t) (s : state) :
  CurrentUser.role user = "admin" ->
  str_in role ["admin"; "staff"; "customer"] = true ->
  (exists u, In u (users s) /\ User.id u = user_id) ->
  update_user_role user_id role user s
  = (Return (RMessage ("User " ++ user_id ++ " role updated to " ++ role)),
     State (map (fun u => if User.id u =? user_id
                          then User.set_role role u else u) (users s))
           (tables s) (bookings s) (stdout s)).
Proof.
  unfold update_user_role. intros -> -> (u & Hin & Hu).
  change (negb ("admin" =? "admin")) with false. cbn [negb].
  rewrite bind_run. cbn [get]. rewrite bind_run. cbn [put_users].
  assert (Hex : existsb (fun u => User.id u =? user_id) (users s) = true).
  { apply existsb_exists. exists u. split; [assumption|].
    now apply String.eqb_eq. }
  now rewrite Hex.
Qed.

(** X6. [update_user_role]: a caller who is not an admin gets a 403; an admin
    gets a 400 for a role other than admin, staff and customer, and a 404 for
    an identifier that is not stored; each of these leaves the state as it
    was. Otherwise the role of the named user, and nothing else, is
    written. *)
Theorem update_user_role_outcomes
    (user_id role : string) (user : CurrentUser.t) (s : state) :
  (CurrentUser.role user <> "admin" ->
   update_user_role user_id role user s
   = (Raise (HTTPException 403 "Admin access required"), s))
  /\ (CurrentUser.role user = "admin" ->
      str_in role ["admin"; "staff"; "customer"] = false ->
      update_user_role user_id role user s
      = (Raise (HTTPException 400
           "Invalid role. Must be admin, staff, or customer"), s))
  /\ (CurrentUser.role user = "admin" ->
      str_in role ["admin"; "staff"; "customer"] = true ->
      (forall u, In u (users s) -> User.id u <> user_id) ->
      update_user_role user_id role user s
      = (Raise (HTTPException 404 "User not found"), s))
  /\ (CurrentUser.role user = "admin" ->
      str_in role ["admin"; "staff"; "customer"] = true ->
      (exists u, In u (users s) /\ User.id u = user_id) ->
      update_user_role user_id role user s
      = (Return (RMessage ("User " ++ user_id ++ " role updated to " ++ role)),
         State (map (fun u => if User.id u =? user_id
                              then User.set_role role u else u) (users s))
               (tables s) (bookings s) (stdout s))).
Proof.
  split; [|split; [|split]]; [unfold update_user_role ..|].
  - intro Hne. apply String.eqb_neq in Hne. now rewrite Hne.
  - intros -> ->. reflexivity.
  - intros -> -> Hnone.
    change (negb ("admin" =? "admin")) with false. cbn [negb].
    rewrite bind_run. cbn [get]. rewrite bind_run. cbn [put_users].
    assert (Hex : existsb (fun u => User.id u =? user_id) (users s) = false).
    { apply not_true_is_false. intro H. apply existsb_exists in H.
      destruct H as (u & Hin & Hu). apply String.eqb_eq in Hu.
      now apply (Hnone u). }
    rewrite Hex. cbn [negb raise].
    now rewrite (map_untouched _ _ _ Hex), state_eta.
  - apply update_user_role_success.
Qed.

(** X7. A change of role takes effect without a new login: once an admin has
    given a stored user another role, a token of that user, whatever role it
    claims, resolves to the new role. *)
Theorem role_change_takes_effect
    (e : env) (token : string) (payload : claims)
    (user_id role : string) (admin : CurrentUser.t) (s : state)
    (Hjwt : jwt_decode e token = Payload payload)
    (Hclaim : claim_user_id payload = Some user_id)
    (Hne : user_id <> "")
    (Hadmin : CurrentUser.role admin = "admin")
    (Hrole : str_in role ["admin"; "staff"; "customer"] = true)
    (Hex : exists u, In u (users s) /\ User.id u = user_id) :
  exists s1 message user,
    update_user_role user_id role admin s = (Return (RMessage message), s1)
    /\ get_current_user e token s1 = (Return user, s1)
    /\ CurrentUser.id user = user_id
    /\ CurrentUser.role user = role.
Proof.
  pose proof (@update_user_role_success user_id role admin s Hadmin Hrole Hex)
    as Hok.
  destruct Hex as (u & Hin & Hu).
  assert (Hfound : exists u',
             find (fun u => User.id u =? user_id)
               (map (fun u => if User.id u =? user_id
                              then User.set_role role u else u) (users s))
             = Some (User.set_role role u')
             /\ User.id u' = user_id).
  { clear Hok. induction (users s) as [|x l IH]; [easy|]. simpl.
    destruct (User.id x =? user_id) eqn:Hx.
    - cbn [User.set_role User.id]. rewrite Hx. exists x.
      split; [reflexivity|now apply String.eqb_eq].
    - rewrite Hx. destruct Hin as [->|Hin]; [|now apply IH].
      apply String.eqb_neq in Hx. now elim Hx. }
  destruct Hfound as (u' & Hfound & Hu').
  eexists. eexists. exists (CurrentUser.of_row (User.set_role role u')).
  split; [exact Hok|]. split; [|now split].
  unfold get_current_user.
  rewrite Hjwt, bind_run, Hclaim.
  apply String.eqb_neq in Hne. rewrite Hne. unfold ret at 1.
  rewrite bind_run, select_user_run. cbn [users].
  now rewrite Hfound.
Qed.

Lemma role_change_takes_effect_witness :
  exists s1 message user,
    update_user_role "u-dave" "staff" (CurrentUser.of_row Cases.erin)
                     Cases.store
    = (Return (RMessage message), s1)
    /\ get_current_user (Cases.world "x") "token-of-dave" s1 = (Return user, s1)
    /\ CurrentUser.id user = "u-dave"
    /\ CurrentUser.role user = "staff".
Proof.
  apply (@role_change_takes_effect (Cases.world "x") "token-of-dave"
           (Claims (Some "u-dave") (Some "customer") 60)
           "u-dave" "staff" (CurrentUser.of_row Cases.erin) Cases.store
           eq_refl eq_refl ltac:(discriminate) eq_refl eq_refl).
  exists Cases.dave. split; [now left|reflexivity].
Defined.

(** X8. The role gates: a caller who is not an admin can neither list the
    users, nor change a role, nor delete a table; a caller who is neither
    admin nor staff can neither create nor update a table. Each attempt is
    answered with a 403 and writes nothing. *)
Theorem role_gates
    (e : env) (r : request) (user : CurrentUser.t) (s : state) :
  (admin_only r = true ->
   CurrentUser.role user <> "admin" ->
   handler e r user s = (Raise (HTTPException 403 "Admin access required"), s))
  /\ (staff_only r = true ->
      CurrentUser.role user <> "admin" ->
      CurrentUser.role user <> "staff" ->
      handler e r user s
      = (Raise (HTTPException 403 "Admin or staff access required"), s)).
Proof.
  split.
  - intros Hr Hne. apply String.eqb_neq in Hne.
    destruct r; try discriminate Hr; cbn [handler].
    + unfold list_users. now rewrite Hne.
    + unfold update_user_role. now rewrite Hne.
    + unfold delete_table. now rewrite Hne.
  - intros Hr Ha Hs. apply String.eqb_neq in Ha, Hs.
    destruct r; try discriminate Hr; cbn [handler].
    + unfold create_table, str_in. cbn [existsb]. now rewrite Ha, Hs.
    + unfold update_table, str_in. cbn [existsb]. now rewrite Ha, Hs.
Qed.

(** ** Tables *)

Lemma select_table_by_number_run (n : Z) (s : state) :
  select_table_by_number n s
  = (Return (find (fun t => (Table.number t =? n)%Z) (tables s)), s).
Proof. reflexivity. Qed.

(** X9. [create_table] keeps the numbers of the stored tables pairwise
    different: a number that is already taken is refused with a 409 that
    writes nothing. *)
Theorem create_table_keeps_numbers_unique
    (e : env) (table : TableCreate.t) (user : CurrentUser.t) (s : state)
    (Hnd : NoDup (map Table.number (tables s))) :
  NoDup (map Table.number (tables (snd (create_table e table user s))))
  /\ (str_in (CurrentUser.role user) ["admin"; "staff"] = true ->
      forall t, In t (tables s) ->
                Table.number t = TableCreate.number table ->
                create_table e table user s
                = (Raise (HTTPException 409 "Table number already exists"), s)).
Proof.
  unfold create_table.
  destruct (str_in (CurrentUser.role user) ["admin"; "staff"]); cbn [negb];
    [|split; [exact Hnd|discriminate]].
  rewrite bind_run, select_table_by_number_run.
  destruct (find _ (tables s)) as [found|] eqn:Hfind.
  - split; [exact Hnd|reflexivity].
  - split.
    + cbn. rewrite map_app.
      apply NoDup_app; [exact Hnd|repeat constructor; easy|].
      intros x Hx [<-|[]]. apply in_map_iff in Hx.
      destruct Hx as (t & Ht & Hin).
      pose proof (find_none _ _ Hfind t Hin) as Hne.
      apply Z.eqb_neq in Hne. now apply Hne.
    + intros _ t Hin Hnum.
      pose proof (find_none _ _ Hfind t Hin) as Hne.
      apply Z.eqb_neq in Hne. now elim Hne.
Qed.

Lemma create_table_keeps_numbers_unique_witness :
  NoDup (map Table.number
           (tables (snd (create_table (Cases.world "t-3")
                           (TableCreate.Make 9 2 None)
                           (CurrentUser.of_row Cases.erin) Cases.store))))
  /\ create_table (Cases.world "t-3") (TableCreate.Make 7 2 None)
       (CurrentUser.of_row Cases.erin) Cases.store
     = (Raise (HTTPException 409 "Table number already exists"), Cases.store).
Proof.
  assert (Hnd : NoDup (map Table.number (tables Cases.store)))
    by (repeat constructor; simpl; intuition discriminate).
  split.
  - exact (proj1 (@create_table_keeps_numbers_unique (Cases.world "t-3")
                    (TableCreate.Make 9 2 None)
                    (CurrentUser.of_row Cases.erin) Cases.store Hnd)).
  - apply (proj2 (@create_table_keeps_numbers_unique (Cases.world "t-3")
                    (TableCreate.Make 7 2 None)
                    (CurrentUser.of_row Cases.erin) Cases.store Hnd)
             eq_refl Sample.T); [now left|reflexivity].
Defined.

Lemma table_fields_set (p : TableUpdate.t) (t : Table.row) :
  fold_left Table.set_column
    (set_if_present VStr "location" (TableUpdate.location p)
       (set_if_present VInt "capacity" (TableUpdate.capacity p)
          (set_if_present VInt "number" (TableUpdate.number p) [])))
    t
  = merged_table p t.
Proof. destruct t. destruct p as [[?|] [?|] [?|]]; reflexivity. Qed.

Lemma table_fields_nil (p : TableUpdate.t) :
  match set_if_present VStr "location" (TableUpdate.location p)
          (set_if_present VInt "capacity" (TableUpdate.capacity p)
             (set_if_present VInt "number" (TableUpdate.number p) [])) with
  | [] => false
  | _ :: _ => true
  end = table_field_present p.
Proof. destruct p as [[?|] [?|] [?|]]; reflexivity. Qed.

(** X10. [update_table] by an admin or a member of staff: an update with no
    field is refused with a 400, even for a table that is not stored; an
    update of a table that is not stored is refused with a 404; both leave
    the state as it was. Otherwise the present fields, and only those, are
    written to the named table. *)
Theorem update_table_outcomes
    (table_id : string) (p : TableUpdate.t) (user : CurrentUser.t) (s : state)
    (Hrole : str_in (CurrentUser.role user) ["admin"; "staff"] = true) :
  (table_field_present p = false ->
   update_table table_id p user s
   = (Raise (HTTPException 400 "No fields to update"), s))
  /\ (table_field_present p = true ->
      (forall t, In t (tables s) -> Table.id t <> table_id) ->
      update_table table_id p user s
      = (Raise (HTTPException 404 "Table not found"), s))
  /\ (table_field_present p = true ->
      (exists t, In t (tables s) /\ Table.id t = table_id) ->
      update_table table_id p user s
      = (Return (RMessage ("Table " ++ table_id ++ " updated successfully")),
         State (users s)
               (map (fun t => if Table.id t =? table_id
                              then merged_table p t else t) (tables s))
               (bookings s) (stdout s))).
Proof.
  unfold update_table. rewrite Hrole. cbn [negb].
  rewrite <- table_fields_nil.
  destruct (set_if_present VStr "location" _ _) as [|kv fields] eqn:Hf.
  - split; [reflexivity|split; discriminate].
  - rewrite <- Hf. clear kv fields Hf.
    split; [discriminate|].
    rewrite bind_run. cbn [get]. rewrite bind_run. cbn [put_tables].
    assert (Hmap : map (fun t => if Table.id t =? table_id
                                 then fold_left Table.set_column
                                        (set_if_present VStr "location"
                                           (TableUpdate.location p)
                                           (set_if_present VInt "capacity"
                                              (TableUpdate.capacity p)
                                              (set_if_present VInt "number"
                                                 (TableUpdate.number p) [])))
                                        t
                                 else t) (tables s)
                   = map (fun t => if Table.id t =? table_id
                                   then merged_table p t else t) (tables s)).
    { apply map_ext. intro t. now rewrite table_fields_set. }
    rewrite Hmap. split.
    + intros _ Hnone.
      assert (Hex : existsb (fun t => Table.id t =? table_id) (tables s)
                    = false).
      { apply not_true_is_false. intro H. apply existsb_exists in H.
        destruct H as (t & Hin & Ht). apply String.eqb_eq in Ht.
        now apply (Hnone t). }
      rewrite Hex. cbn [negb raise].
      now rewrite (map_untouched _ _ _ Hex), state_eta.
    + intros _ (t & Hin & Ht).
      assert (Hex : existsb (fun t => Table.id t =? table_id) (tables s)
                    = true).
      { apply existsb_exists. exists t. split; [assumption|].
        now apply String.eqb_eq. }
      now rewrite Hex.
Qed.

Lemma update_table_outcomes_witness :
  update_table "t-2" (TableUpdate.Make None (Some 8%Z) None)
               (CurrentUser.of_row Sample.carol) Cases.store
  = (Return (RMessage "Table t-2 updated successfully"),
     State [Cases.dave; Cases.erin]
           [Sample.T; Table.Row "t-2" 3 8 None]
           [Sample.B1; Sample.B2] []).
Proof.
  apply (proj2 (proj2 (@update_table_outcomes "t-2"
                         (TableUpdate.Make None (Some 8%Z) None)
                         (CurrentUser.of_row Sample.carol) Cases.store
                         eq_refl)) eq_refl).
  exists Cases.T2. split; [right; now left|reflexivity].
Defined.

Lemma filter_untouched {A : Type} (hit : A -> bool) (l : list A) :
  existsb hit l = false -> filter (fun x => negb (hit x)) l = l.
Proof.
  induction l as [|x l IH]; simpl; [reflexivity|].
  intro H. apply orb_false_iff in H. destruct H as [Hx Hl].
  rewrite Hx. cbn [negb]. now rewrite IH.
Qed.

(** X11. Once an admin has deleted a stored table, the tables with another
    identifier are all still there, a request to book the deleted table is
    refused with a 404, and so is a second deletion. *)
Theorem deleted_table_cannot_be_booked
    (e : env) (table_id : string) (admin user : CurrentUser.t)
    (booking : BookingCreate.t) (s : state)
    (Hadmin : CurrentUser.role admin = "admin")
    (Hex : exists t, In t (tables s) /\ Table.id t = table_id)
    (Hb : BookingCreate.table_id booking = table_id) :
  exists s1,
    delete_table table_id admin s
    = (Return (RMessage ("Table " ++ table_id ++ " deleted successfully")), s1)
    /\ (forall t, In t (tables s1) <-> In t (tables s) /\ Table.id t <> table_id)
    /\ create_booking e booking user s1
       = (Raise (HTTPException 404 "Table not found"), s1)
    /\ delete_table table_id admin s1
       = (Raise (HTTPException 404 "Table not found"), s1).
Proof.
  destruct Hex as (t0 & Hin0 & Ht0).
  assert (Hhas : existsb (fun t => Table.id t =? table_id) (tables s) = true).
  { apply existsb_exists. exists t0. split; [assumption|].
    now apply String.eqb_eq. }
  set (rest := filter (fun t => negb (Table.id t =? table_id)) (tables s)).
  assert (Hrest : forall t, In t rest
                            <-> In t (tables s) /\ Table.id t <> table_id).
  { intro t. unfold rest.
    now rewrite filter_In, negb_true_iff, String.eqb_neq. }
  assert (Hgone : existsb (fun t => Table.id t =? table_id) rest = false).
  { apply not_true_is_false. intro H. apply existsb_exists in H.
    destruct H as (t & Hin & Ht). apply String.eqb_eq in Ht.
    apply Hrest in Hin. now destruct Hin. }
  exists (State (users s) rest (bookings s) (stdout s)).
  split; [|split; [exact Hrest|split]].
  - unfold delete_table. rewrite Hadmin.
    change (negb ("admin" =? "admin")) with false. cbn [negb].
    rewrite bind_run. cbn [get]. rewrite bind_run. cbn [put_tables].
    now rewrite Hhas.
  - destruct (create_booking_run e booking user
                (State (users s) rest (bookings s) (stdout s))) as [out Hrun].
    rewrite Hrun. cbn [tables]. rewrite Hb.
    rewrite find_all_false; [reflexivity|].
    intros t Hin. apply Hrest in Hin. now apply String.eqb_neq.
  - unfold delete_table. rewrite Hadmin.
    change (negb ("admin" =? "admin")) with false. cbn [negb].
    rewrite bind_run. cbn [get]. rewrite bind_run. cbn [put_tables tables].
    rewrite Hgone. cbn [negb raise].
    now rewrite (filter_untouched _ _ Hgone).
Qed.

Lemma deleted_table_cannot_be_booked_witness :
  exists s1,
    delete_table "t-2" (CurrentUser.of_row Cases.erin) Cases.store
    = (Return (RMessage "Table t-2 deleted successfully"), s1)
    /\ create_booking (Cases.world "b-9")
         (BookingCreate.Make "t-2" "2024-06-02" "12:00" "13:00" 2)
         (CurrentUser.of_row Cases.dave) s1
       = (Raise (HTTPException 404 "Table not found"), s1).
Proof.
  destruct (@deleted_table_cannot_be_booked (Cases.world "b-9") "t-2"
              (CurrentUser.of_row Cases.erin) (CurrentUser.of_row Cases.dave)
              (BookingCreate.Make "t-2" "2024-06-02" "12:00" "13:00" 2)
              Cases.store eq_refl
              (ex_intro _ Cases.T2 (conj (or_intror (or_introl eq_refl)) eq_refl))
              eq_refl)
    as (s1 & Hdel & _ & Hbook & _).
  exists s1. now split.
Defined.

(** ** Listings *)

Lemma insert_by_perm {A : Type} (le : A -> A -> bool) (x : A) (l : list A) :
  Permutation (insert_by le x l) (x :: l).
Proof.
  induction l as [|y l IH]; simpl; [reflexivity|].
  destruct (le x y); [reflexivity|].
  rewrite IH. apply perm_swap.
Qed.

Lemma order_by_perm {A : Type} (le : A -> A -> bool) (l : list A) :
  Permutation (order_by le l) l.
Proof.
  induction l as [|x l IH]; simpl; [reflexivity|].
  unfold order_by in *. simpl. rewrite insert_by_perm. now constructor.
Qed.

Lemma order_by_In {A : Type} (le : A -> A -> bool) (l : list A) (x : A) :
  In x (order_by le l) <-> In x l.
Proof.
  split; apply Permutation_in;
    [apply order_by_perm|apply Permutation_sym, order_by_perm].
Qed.

Lemma insert_by_sorted {A : Type} (le : A -> A -> bool)
    (total : forall a b, le a b = true \/ le b a = true)
    (x : A) (l : list A) :
  Sorted (fun a b => le a b = true) l ->
  Sorted (fun a b => le a b = true) (insert_by le x l).
Proof.
  induction l as [|y l IH]; simpl; intro Hs.
  - repeat constructor.
  - destruct (le x y) eqn:Hxy.
    + constructor; [assumption|now constructor].
    + assert (Hyx : le y x = true)
        by (destruct (total x y); [congruence|assumption]).
      inversion Hs as [|? ? Hl Hhd]; subst.
      constructor; [now apply IH|].
      destruct l as [|z l]; simpl.
      * now constructor.
      * destruct (le x z); constructor; [assumption|].
        now inversion Hhd.
Qed.

Lemma order_by_sorted {A : Type} (le : A -> A -> bool)
    (total : forall a b, le a b = true \/ le b a = true) (l : list A) :
  Sorted (fun a b => le a b = true) (order_by le l).
Proof.
  induction l as [|x l IH]; [constructor|].
  unfold order_by in *. simpl. now apply insert_by_sorted.
Qed.

Lemma Sorted_map {A B : Type} (f : A -> B) (R : B -> B -> Prop)
    (l : list A) :
  Sorted (fun a b => R (f a) (f b)) l -> Sorted R (map f l).
Proof.
  induction 1 as [|x l Hs IH Hhd]; simpl; constructor; [assumption|].
  destruct Hhd; simpl; now constructor.
Qed.

(** X12. [list_tables] answers every caller with the stored tables, each
    once, in ascending order of their numbers, and writes nothing. *)
Theorem list_tables_sorted (user : CurrentUser.t) (s : state) :
  exists l,
    list_tables user s = (Return (RTables l), s)
    /\ Permutation l (tables s)
    /\ Sorted (fun a b => (Table.number a <=? Table.number b)%Z = true) l.
Proof.
  eexists. split; [reflexivity|]. split.
  - apply order_by_perm.
  - apply (order_by_sorted
             (fun a b : Table.row => (Table.number a <=? Table.number b)%Z)).
    intros a b. rewrite !Z.leb_le. lia.
Qed.

(** X13. [list_users] answers an admin with every stored user, each once,
    without hash or salt, in ascending order of their names, and writes
    nothing. *)
Theorem list_users_sorted (user : CurrentUser.t) (s : state)
    (Hadmin : CurrentUser.role user = "admin") :
  exists l,
    list_users user s = (Return (RUsers l), s)
    /\ Permutation l (map CurrentUser.of_row (users s))
    /\ Sorted (fun a b => (CurrentUser.name a <=? CurrentUser.name b) = true) l.
Proof.
  unfold list_users. rewrite Hadmin.
  change (negb ("admin" =? "admin")) with false. cbn [negb].
  eexists. split; [reflexivity|]. split.
  - apply Permutation_map, order_by_perm.
  - apply Sorted_map.
    apply (order_by_sorted (fun a b : User.row => User.name a <=? User.name b)).
    intros a b. apply String.leb_total.
Qed.

Lemma list_users_sorted_witness :
  exists l,
    list_users (CurrentUser.of_row Cases.erin) Cases.store
    = (Return (RUsers l), Cases.store)
    /\ Permutation l (map CurrentUser.of_row (users Cases.store)).
Proof.
  destruct (@list_users_sorted (CurrentUser.of_row Cases.erin) Cases.store
              eq_refl) as (l & H & Hp & _).
  now exists l.
Defined.

Lemma string_trichotomy (a b : string) :
  (a <? b) = true \/ a = b \/ (b <? a) = true.
Proof.
  unfold String.ltb. rewrite (String.compare_antisym a b).
  destruct (b ?= a) eqn:H; simpl; auto.
  right; left. symmetry. now apply String.compare_eq_iff.
Qed.

Lemma listing_le_total (a b : Listing.t) :
  listing_le a b = true \/ listing_le b a = true.
Proof.
  unfold listing_le.
  destruct (string_trichotomy (Booking.date (Listing.booking a))
                              (Booking.date (Listing.booking b)))
    as [H|[H|H]].
  - right. now rewrite H.
  - rewrite H, String.eqb_refl, !ltb_irrefl. cbn [orb andb].
    apply String.leb_total.
  - left. now rewrite H.
Qed.

(** X14. [list_bookings] shows a caller who is neither admin nor staff the
    bookings of that caller only, each with the number of its table and
    without the name of any user; it shows an admin or a member of staff
    every booking with the name of its user and the number of its table. A
    booking whose table (or, for staff, whose user) is not stored is not
    listed. The answer is ordered by descending date, then ascending start,
    and nothing is written. *)
Theorem list_bookings_views (user : CurrentUser.t) (s : state) :
  exists l,
    list_bookings user s = (Return (RBookings l), s)
    /\ Sorted (fun a b => listing_le a b = true) l
    /\ (str_in (CurrentUser.role user) ["admin"; "staff"] = false ->
        forall x,
          In x l
          <-> exists b t,
                In b (bookings s) /\ In t (tables s)
                /\ Booking.user_id b = CurrentUser.id user
                /\ Booking.table_id b = Table.id t
                /\ x = Listing.Make b None (Table.number t))
    /\ (str_in (CurrentUser.role user) ["admin"; "staff"] = true ->
        forall x,
          In x l
          <-> exists b u t,
                In b (bookings s) /\ In u (users s) /\ In t (tables s)
                /\ Booking.user_id b = User.id u
                /\ Booking.table_id b = Table.id t
                /\ x = Listing.Make b (Some (User.name u)) (Table.number t)).
Proof.
  unfold list_bookings. rewrite bind_run. cbn [get ret].
  eexists. split; [reflexivity|]. split.
  - apply order_by_sorted, listing_le_total.
  - split; intros Hrole x; rewrite Hrole;
      rewrite order_by_In.
    + rewrite in_flat_map. split.
      * intros (b & Hb & Hx). apply filter_In in Hb. destruct Hb as [Hb Hown].
        apply in_map_iff in Hx. destruct Hx as (t & <- & Ht).
        apply filter_In in Ht. destruct Ht as [Ht Htid].
        apply String.eqb_eq in Hown, Htid. now exists b, t.
      * intros (b & t & Hb & Ht & Hown & Htid & ->).
        exists b. split.
        -- apply filter_In. split; [assumption|now apply String.eqb_eq].
        -- apply in_map_iff. exists t. split; [reflexivity|].
           apply filter_In. split; [assumption|now apply String.eqb_eq].
    + rewrite in_flat_map. split.
      * intros (b & Hb & Hx). apply in_flat_map in Hx.
        destruct Hx as (u & Hu & Hx).
        apply filter_In in Hu. destruct Hu as [Hu Huid].
        apply in_map_iff in Hx. destruct Hx as (t & <- & Ht).
        apply filter_In in Ht. destruct Ht as [Ht Htid].
        apply String.eqb_eq in Huid, Htid. now exists b, u, t.
      * intros (b & u & t & Hb & Hu & Ht & Huid & Htid & ->).
        exists b. split; [assumption|].
        apply in_flat_map. exists u. split.
        -- apply filter_In. split; [assumption|now apply String.eqb_eq].
        -- apply in_map_iff. exists t. split; [reflexivity|].
           apply filter_In. split; [assumption|now apply String.eqb_eq].
Qed.

(** ** More on bookings *)

(** X15. [create_booking] writes one thing at most: when it fails the state
    is as it was; when it succeeds the new booking, confirmed and owned by
    the caller, is added to the bookings, which are otherwise as they were,
    and neither users nor tables are written. *)
Theorem create_booking_effect
    (e : env) (booking : BookingCreate.t) (user : CurrentUser.t) (s : state) :
  (forall x s', create_booking e booking user s = (Raise x, s') -> s' = s)
  /\ (forall r s',
         create_booking e booking user s = (Return r, s') ->
         bookings s' = bookings s ++ [new_booking e booking user]
         /\ users s' = users s /\ tables s' = tables s
         /\ exists table_row,
              In table_row (tables s)
              /\ Table.id table_row = BookingCreate.table_id booking
              /\ r = RBooking (new_booking e booking user)
                              (Table.number table_row)).
Proof.
  destruct (create_booking_run e booking user s) as [out Hrun].
  rewrite Hrun; clear Hrun.
  destruct (find _ (tables s)) as [table_row|] eqn:Ht;
    [|split; [intros x s' H; now inversion H|discriminate]].
  destruct (_ >? _)%Z; [split; [intros x s' H; now inversion H|discriminate]|].
  destruct (find _ (bookings s));
    [split; [intros x s' H; now inversion H|discriminate]|].
  split; [discriminate|].
  intros r s' H. inversion H; subst. repeat split.
  apply find_some in Ht. destruct Ht as [Hin Hid].
  apply String.eqb_eq in Hid. now exists table_row.
Qed.

Lemma create_booking_over_capacity_witness :
  exists detail,
    create_booking (Sample.world "b-9") (Sample.slot "18:30" "19:30" 5)
      (CurrentUser.of_row Sample.bob) Sample.store1
    = (Raise (HTTPException 400 detail), Sample.store1).
Proof.
  apply (@create_booking_over_capacity (Sample.world "b-9")
           (Sample.slot "18:30" "19:30" 5) (CurrentUser.of_row Sample.bob)
           Sample.store1 Sample.T eq_refl).
  simpl. lia.
Defined.

Lemma filter_app_last {A : Type} (f : A -> bool) (l : list A) (x : A) :
  filter f (l ++ [x]) = filter f l ++ (if f x then [x] else []).
Proof. now rewrite filter_app. Qed.

Lemma no_id_in (l : list Booking.row) (id : string) :
  ~ In id (map Booking.id l) ->
  existsb (fun b => Booking.id b =? id) l = false.
Proof.
  intro H. apply not_true_is_false. intro Hex.
  apply existsb_exists in Hex. destruct Hex as (b & Hin & Hb).
  apply String.eqb_eq in Hb. apply H. rewrite <- Hb. now apply in_map.
Qed.

Lemma existsb_false_find {A : Type} (f : A -> bool) (l : list A) :
  existsb f l = false -> find f l = None.
Proof.
  intro H. apply find_all_false. intros x Hin.
  apply not_true_is_false. intro Hx.
  assert (existsb f l = true) by (apply existsb_exists; eauto). congruence.
Qed.

(** X16. Creating a booking under an unused identifier and then deleting
    it, by the same caller, gives back the bookings there were: the owner
    may always delete the booking just made, and the deletion removes that
    booking and no other. *)
Theorem create_then_delete_restores
    (e e' : env) (booking : BookingCreate.t) (user : CurrentUser.t)
    (s s1 : state) (r : response)
    (Hfresh : ~ In (uuid4 e) (map Booking.id (bookings s)))
    (Hcreate : create_booking e booking user s = (Return r, s1)) :
  exists s2,
    delete_booking e' (uuid4 e) user s1
    = (Return (RMessage ("Booking " ++ uuid4 e ++ " cancelled successfully")),
       s2)
    /\ bookings s2 = bookings s
    /\ users s2 = users s
    /\ tables s2 = tables s.
Proof.
  destruct (create_booking_run e booking user s) as [out Hrun].
  rewrite Hcreate in Hrun.
  destruct (find _ (tables s)) as [table_row|]; [|discriminate].
  destruct (_ >? _)%Z; [discriminate|].
  destruct (find _ (bookings s)); [discriminate|].
  inversion Hrun; subst; clear Hrun.
  pose proof (no_id_in _ _ Hfresh) as Hno.
  destruct (delete_booking_run e' (uuid4 e) user
              (log_more
                 (State (users s) (tables s)
                    (bookings s ++ [new_booking e booking user]) (stdout s))
                 out)) as [out' Hdel].
  cbn [log_more bookings users tables stdout] in Hdel.
  rewrite (find_app_none _ _ _ (existsb_false_find _ _ Hno)) in Hdel.
  cbn [new_booking Booking.id] in Hdel. rewrite String.eqb_refl in Hdel.
  unfold not_permitted in Hdel. cbn [Booking.user_id] in Hdel.
  rewrite String.eqb_refl, andb_false_r in Hdel.
  eexists. split; [exact Hdel|].
  cbn [log_more bookings users tables].
  rewrite filter_app_last. cbn [Booking.id]. rewrite String.eqb_refl.
  cbn [negb]. now rewrite app_nil_r, (filter_untouched _ _ Hno).
Qed.

Lemma create_then_delete_restores_witness :
  exists s2 message,
    delete_booking (Sample.world "x") "b-9" (CurrentUser.of_row Sample.bob)
      (State [Sample.alice; Sample.bob; Sample.carol] [Sample.T]
             [Sample.B1;
              Booking.Row "b-9" "u-bob" "t-1" "2024-06-01" "20:00" "21:00" 2
                          "confirmed" "2024-05-01T12:00:00+07:00"] [])
    = (Return (RMessage message), s2)
    /\ bookings s2 = [Sample.B1].
Proof.
  destruct (@create_then_delete_restores (Sample.world "b-9") (Sample.world "x")
              (Sample.slot "20:00" "21:00" 2) (CurrentUser.of_row Sample.bob)
              Sample.store1
              (State [Sample.alice; Sample.bob; Sample.carol] [Sample.T]
                     [Sample.B1;
                      Booking.Row "b-9" "u-bob" "t-1" "2024-06-01" "20:00"
                                  "21:00" 2 "confirmed"
                                  "2024-05-01T12:00:00+07:00"] [])
              (RBooking
                 (Booking.Row "b-9" "u-bob" "t-1" "2024-06-01" "20:00" "21:00"
                              2 "confirmed" "2024-05-01T12:00:00+07:00") 7)
              ltac:(simpl; intuition discriminate) eq_refl)
    as (s2 & Hdel & Hb & _).
  exists s2. eexists. split; [exact Hdel|exact Hb].
Defined.

(** X17. A deleted booking is gone: after a successful [delete_booking],
    every later update or deletion of the same identifier, by anyone, is
    refused with a 404 and writes nothing. *)
Theorem delete_then_gone
    (e : env) (booking_id : string) (user : CurrentUser.t)
    (s s1 : state) (r : response)
    (Hdelete : delete_booking e booking_id user s = (Return r, s1)) :
  forall (e' : env) (anyone : CurrentUser.t) (p : BookingUpdate.t),
    update_booking e' booking_id p anyone s1
    = (Raise (HTTPException 404 "Booking not found"), s1)
    /\ delete_booking e' booking_id anyone s1
       = (Raise (HTTPException 404 "Booking not found"), s1).
Proof.
  destruct (delete_booking_run e booking_id user s) as [out Hrun].
  rewrite Hdelete in Hrun.
  destruct (find _ (bookings s)) as [existing|]; [|discriminate].
  destruct (not_permitted user existing); [discriminate|].
  inversion Hrun; subst; clear Hrun.
  intros e' anyone p.
  assert (Hgone : find (fun b => Booking.id b =? booking_id)
                    (filter (fun b => negb (Booking.id b =? booking_id))
                            (bookings s)) = None).
  { apply find_all_false. intros b Hb. apply filter_In in Hb.
    now apply negb_true_iff. }
  destruct (update_booking_run e' booking_id p anyone
              (log_more
                 (State (users s) (tables s)
                    (filter (fun b => negb (Booking.id b =? booking_id))
                            (bookings s)) (stdout s)) out)) as [o1 Hu].
  destruct (delete_booking_run e' booking_id anyone
              (log_more
                 (State (users s) (tables s)
                    (filter (fun b => negb (Booking.id b =? booking_id))
                            (bookings s)) (stdout s)) out)) as [o2 Hd].
  cbn [log_more bookings] in Hu, Hd. rewrite Hgone in Hu, Hd.
  now split.
Qed.

Lemma delete_then_gone_witness :
  delete_booking (Sample.world "y") "b-1" (CurrentUser.of_row Sample.carol)
    (State [Sample.alice; Sample.bob; Sample.carol] [Sample.T] []
           ["SMS API request timed out after 15 seconds."])
  = (Raise (HTTPException 404 "Booking not found"),
     State [Sample.alice; Sample.bob; Sample.carol] [Sample.T] []
           ["SMS API request timed out after 15 seconds."]).
Proof.
  apply (@delete_then_gone (Sample.world "x") "b-1"
           (CurrentUser.of_row Sample.alice) Sample.store1
           (State [Sample.alice; Sample.bob; Sample.carol] [Sample.T] []
                  ["SMS API request timed out after 15 seconds."])
           (RMessage "Booking b-1 cancelled successfully") eq_refl
           (Sample.world "y") (CurrentUser.of_row Sample.carol)
           Sample.empty_update).
Defined.

(** X18. Cancelling through [update_booking] frees the slot: an update that
    only sets the status of a stored booking to cancelled is accepted from
    whoever may write the booking, without any overlap check, and a request
    for the table, date, start and end of that booking then succeeds, given
    the table is stored, seats the guests, and no other booking conflicts. *)
Theorem cancel_by_update_frees_slot
    (e e' : env) (booking_id : string) (user requester : CurrentUser.t)
    (s : state) (B : Booking.row) (table_row : Table.row) (guests : Z)
    (HB : find (fun b => Booking.id b =? booking_id) (bookings s) = Some B)
    (Hperm : ~ denied user B)
    (Htable : find (fun t => Table.id t =? Booking.table_id B) (tables s)
              = Some table_row)
    (Hcap : (guests <= Table.capacity table_row)%Z)
    (Hothers : forall b, In b (bookings s) -> Booking.id b <> booking_id ->
                 ~ overlap_rule (Booking.table_id B) (Booking.date B)
                     (Booking.start_time B) (Booking.end_time B) b) :
  let cancel := BookingUpdate.Make None None None None None (Some "cancelled") in
  let again :=
    BookingCreate.Make (Booking.table_id B) (Booking.date B)
                       (Booking.start_time B) (Booking.end_time B) guests in
  exists s1,
    update_booking e booking_id cancel user s
    = (Return (RMessage ("Booking " ++ booking_id ++ " updated successfully")),
       s1)
    /\ exists out,
         create_booking e' again requester s1
         = (Return (RBooking (new_booking e' again requester)
                             (Table.number table_row)),
            log_more
              (State (users s1) (tables s1)
                 (bookings s1 ++ [new_booking e' again requester])
                 (stdout s1)) out).
Proof.
  intros cancel again.
  destruct (update_booking_run e booking_id cancel user s) as [out1 Hu].
  rewrite HB in Hu. rewrite <- not_permitted_iff in Hperm.
  destruct (not_permitted user B); [now elim Hperm|].
  cbn in Hu.
  eexists. split; [exact Hu|].
  apply (@create_conflict_free e' again requester _ table_row).
  - exact Htable.
  - exact Hcap.
  - intros b' Hb'. cbn [log_more bookings] in Hb'.
    apply in_map_iff in Hb'. destruct Hb' as (b & <- & Hb).
    destruct (Booking.id b =? booking_id) eqn:Hid.
    + intros (_ & _ & Hst & _). now apply Hst.
    + apply Hothers; [assumption|now apply String.eqb_neq].
Qed.

Lemma cancel_by_update_frees_slot_witness :
  exists s1 r s2,
    update_booking (Sample.world "x") "b-1" (Sample.set_status "cancelled")
      (CurrentUser.of_row Sample.alice) Sample.store2
    = (Return (RMessage "Booking b-1 updated successfully"), s1)
    /\ create_booking (Sample.world "b-3") (Sample.slot "18:00" "19:00" 4)
         (CurrentUser.of_row Sample.bob) s1
       = (Return r, s2).
Proof.
  destruct (@cancel_by_update_frees_slot (Sample.world "x") (Sample.world "b-3")
              "b-1" (CurrentUser.of_row Sample.alice)
              (CurrentUser.of_row Sample.bob) Sample.store2 Sample.B1 Sample.T 4
              eq_refl ltac:(intros (_ & _ & H); now apply H) eq_refl
              ltac:(simpl; lia)
              ltac:(intros b [<-|[<-|[]]] H;
                    [now elim H
                    |intros (_ & _ & _ & Hc & _); discriminate Hc]))
    as (s1 & Hupd & out & Hnew).
  exists s1. eexists. eexists. split; [exact Hupd|exact Hnew].
Defined.

(** X19. A status other than confirmed and cancelled is refused: for a
    stored booking and a requester who may write it, [update_booking] with
    such a status fails with a 400 and writes nothing, whatever the other
    fields are and whether or not the slot they give is free. *)
Theorem update_invalid_status
    (e : env) (booking_id : string) (p : BookingUpdate.t)
    (user : CurrentUser.t) (s : state) (existing : Booking.row) (st : string)
    (Hex : find (fun b => Booking.id b =? booking_id) (bookings s)
           = Some existing)
    (Hperm : ~ denied user existing)
    (Hst : BookingUpdate.status p = Some st)
    (Hbad : st <> "confirmed" /\ st <> "cancelled") :
  update_booking e booking_id p user s
  = (Raise (HTTPException 400
       "Invalid status. Must be 'confirmed' or 'cancelled'"), s).
Proof.
  destruct (update_booking_run e booking_id p user s) as [out Hu].
  rewrite Hex in Hu. rewrite <- not_permitted_iff in Hperm.
  destruct (not_permitted user existing); [now elim Hperm|].
  unfold status_ok in Hu. rewrite Hst in Hu.
  destruct Hbad as [Hc Hx]. apply String.eqb_neq in Hc, Hx.
  unfold str_in in Hu. cbn [existsb] in Hu. rewrite Hc, Hx in Hu.
  exact Hu.
Qed.

Lemma update_invalid_status_witness :
  update_booking (Sample.world "x") "b-2"
    (BookingUpdate.Make None None (Some "18:30") None None (Some "completed"))
    (CurrentUser.of_row Sample.bob) Sample.store2
  = (Raise (HTTPException 400
       "Invalid status. Must be 'confirmed' or 'cancelled'"), Sample.store2).
Proof.
  apply (@update_invalid_status (Sample.world "x") "b-2"
           (BookingUpdate.Make None None (Some "18:30") None None
                               (Some "completed"))
           (CurrentUser.of_row Sample.bob) Sample.store2 Sample.B2 "completed"
           eq_refl).
  - intros (_ & _ & H). now apply H.
  - reflexivity.
  - split; discriminate.
Defined.

Lemma no_double_booking_unless_reactivated_witness :
  no_double_booking
    (bookings
       (snd (run [ (Sample.world "b-2", CurrentUser.of_row Sample.bob,
                    CreateBooking (Sample.slot "19:00" "20:00" 2));
                   (Sample.world "x", CurrentUser.of_row Sample.bob,
                    UpdateBooking "b-2" (Sample.move (Some "18:30") None));
                   (Sample.world "y", CurrentUser.of_row Sample.alice,
                    DeleteBooking "b-1") ]
                 Sample.store1))).
Proof.
  apply no_double_booking_unless_reactivated.
  - repeat constructor. simpl. tauto.
  - intros a b [<-|[]] [<-|[]] H. now elim H.
  - simpl. repeat split; try discriminate; intuition discriminate.
Defined.

(** ** The SMS gateway *)

(** X20. [send_sms] never raises and never writes the store. It returns the
    parsed reply exactly when an API key is set, the gateway accepts the
    message and its reply parses, and then prints nothing; in every other
    case (no key, empty key, error status, timeout, any other failure) it
    returns [None] and prints one line. *)
Theorem send_sms_delivery
    (e : env) (phone_number message : string) (s : state) :
  exists r out,
    send_sms e phone_number message s = (Return r, log_more s out)
    /\ (forall document,
           r = Some document
           <-> exists key,
                 SMSNOTIF_API_KEY e = Some key /\ key <> ""
                 /\ post e key phone_number message = Success (inl document))
    /\ (r = None -> length out = 1%nat)
    /\ (r <> None -> out = []).
Proof.
  unfold send_sms.
  destruct (SMSNOTIF_API_KEY e) as [key|].
  - destruct (key =? "") eqn:Hkey.
    + apply String.eqb_eq in Hkey.
      eexists None, [_]. split; [reflexivity|]. split; [|now split].
      intro d. split; [discriminate|].
      intros (k & Hk & Hne & _). inversion Hk; subst. now elim Hne.
    + apply String.eqb_neq in Hkey.
      destruct (post e key phone_number message)
        as [[document|msg]|code text| |msg] eqn:Hpost.
      * exists (Some document), []. rewrite log_more_nil.
        split; [reflexivity|]. split; [|split; [discriminate|reflexivity]].
        intro d. split.
        -- intro H. inversion H; subst. now exists key.
        -- intros (k & Hk & _ & Hp). inversion Hk; subst.
           rewrite Hpost in Hp. now inversion Hp.
      * eexists None, [_]. split; [reflexivity|]. split; [|now split].
        intro d. split; [discriminate|].
        intros (k & Hk & _ & Hp). inversion Hk; subst.
        rewrite Hpost in Hp. discriminate.
      * eexists None, [_]. split; [reflexivity|]. split; [|now split].
        intro d. split; [discriminate|].
        intros (k & Hk & _ & Hp). inversion Hk; subst.
        rewrite Hpost in Hp. discriminate.
      * eexists None, [_]. split; [reflexivity|]. split; [|now split].
        intro d. split; [discriminate|].
        intros (k & Hk & _ & Hp). inversion Hk; subst.
        rewrite Hpost in Hp. discriminate.
      * eexists None, [_]. split; [reflexivity|]. split; [|now split].
        intro d. split; [discriminate|].
        intros (k & Hk & _ & Hp). inversion Hk; subst.
        rewrite Hpost in Hp. discriminate.
  - eexists None, [_]. split; [reflexivity|]. split; [|now split].
    intro d. split; [discriminate|]. intros (k & Hk & _). discriminate.
Qed.

(** ** Bootstrap of the store *)

Lemma find_some_existsb {A : Type} (f : A -> bool) (l : list A) (x : A) :
  find f l = Some x -> existsb f l = true.
Proof.
  intro H. apply find_some in H. apply existsb_exists. now exists x.
Qed.

Lemma existsb_false_find_conv {A : Type} (f : A -> bool) (l : list A) :
  find f l = None -> existsb f l = false.
Proof.
  intro H. apply not_true_is_false. intro Hex.
  apply existsb_exists in Hex. destruct Hex as (x & Hin & Hx).
  now rewrite (find_none _ _ H x Hin) in Hx.
Qed.

Lemma seed_users_loop_grows (o : Database.oracle) (name : string)
    (seeds : list (string * string * string)) :
  forall uuids salts l,
    (exists extra,
        snd (Database.seed_users_loop o uuids salts seeds l) = l ++ extra)
    /\ (existsb (fun u => Database.username u =? name) l = true
        \/ In name (map (fun x => fst (fst x)) seeds) ->
        existsb (fun u => Database.username u =? name)
                (snd (Database.seed_users_loop o uuids salts seeds l)) = true).
Proof.
  induction seeds as [|[[n p] r] seeds IH]; intros uuids salts l; simpl.
  - split; [exists []; now rewrite app_nil_r|]. now intros [H|[]].
  - destruct (find _ l) as [found|] eqn:Hfind.
    + destruct (IH uuids salts l) as [Hext Hhas].
      split; [exact Hext|].
      intros [H|[<-|H]]; apply Hhas; auto.
      left. exact (find_some_existsb _ _ Hfind).
    + destruct (IH (S uuids) (S salts)
                  (l ++ [Database.UserRow (Database.gen_random_uuid o uuids) n
                           (Database.hash_password o p
                              (Database.token_hex o salts))
                           (Database.token_hex o salts) r
                           (Database.CURRENT_TIMESTAMP o)]))
        as [[extra Hext] Hhas].
      split.
      * eexists. rewrite Hext, <- app_assoc. reflexivity.
      * intros [H|[<-|H]]; apply Hhas; auto; left; rewrite existsb_app.
        -- now rewrite H.
        -- cbn. now rewrite String.eqb_refl, orb_true_r.
Qed.

Lemma seed_users_loop_fixed (o : Database.oracle)
    (seeds : list (string * string * string)) :
  forall uuids salts l,
    (forall name, In name (map (fun x => fst (fst x)) seeds) ->
                  existsb (fun u => Database.username u =? name) l = true) ->
    Database.seed_users_loop o uuids salts seeds l = (uuids, l).
Proof.
  induction seeds as [|[[n p] r] seeds IH]; intros uuids salts l Hall; simpl;
    [reflexivity|].
  destruct (find _ l) eqn:Hfind.
  - apply IH. intros name Hin. apply Hall. now right.
  - apply existsb_false_find_conv in Hfind.
    rewrite (Hall n) in Hfind by now left. discriminate.
Qed.

Lemma seed_tables_loop_grows (o : Database.oracle) (number : Z)
    (seeds : list (Z * Z * string)) :
  forall uuids l,
    (exists extra, Database.seed_tables_loop o uuids seeds l = l ++ extra)
    /\ (existsb (fun t => (Database.table_number t =? number)%Z) l = true
        \/ In number (map (fun x => fst (fst x)) seeds) ->
        existsb (fun t => (Database.table_number t =? number)%Z)
                (Database.seed_tables_loop o uuids seeds l) = true).
Proof.
  induction seeds as [|[[n c] p] seeds IH]; intros uuids l; simpl.
  - split; [exists []; now rewrite app_nil_r|]. now intros [H|[]].
  - destruct (find _ l) as [found|] eqn:Hfind.
    + destruct (IH uuids l) as [Hext Hhas].
      split; [exact Hext|].
      intros [H|[<-|H]]; apply Hhas; auto.
      left. exact (find_some_existsb _ _ Hfind).
    + destruct (IH (S uuids)
                  (l ++ [Database.TableRow (Database.gen_random_uuid o uuids)
                           n c p true]))
        as [[extra Hext] Hhas].
      split.
      * eexists. rewrite Hext, <- app_assoc. reflexivity.
      * intros [H|[<-|H]]; apply Hhas; auto; left; rewrite existsb_app.
        -- now rewrite H.
        -- cbn. now rewrite Z.eqb_refl, orb_true_r.
Qed.

Lemma seed_tables_loop_fixed (o : Database.oracle)
    (seeds : list (Z * Z * string)) :
  forall uuids l,
    (forall number, In number (map (fun x => fst (fst x)) seeds) ->
                    existsb (fun t => (Database.table_number t =? number)%Z) l
                    = true) ->
    Database.seed_tables_loop o uuids seeds l = l.
Proof.
  induction seeds as [|[[n c] p] seeds IH]; intros uuids l Hall; simpl;
    [reflexivity|].
  destruct (find _ l) eqn:Hfind.
  - apply IH. intros number Hin. apply Hall. now right.
  - apply existsb_false_find_conv in Hfind.
    rewrite (Hall n) in Hfind by now left. discriminate.
Qed.

(** X21. [initialise_database] may be run again and again: a second run,
    whatever identifiers and salts it would draw, leaves the store of the
    first run as it is. A run keeps every row it finds, in place and
    unchanged (a stored admin keeps hash and salt), and afterwards every
    seed username and every seed table number is stored. *)
Theorem initialise_database_idempotent
    (o o' : Database.oracle) (s : Database.store) :
  Database.initialise_database o' (Database.initialise_database o s)
  = Database.initialise_database o s
  /\ (exists more_users more_tables,
         Database.users (Database.initialise_database o s)
         = Database.users s ++ more_users
         /\ Database.tables (Database.initialise_database o s)
            = Database.tables s ++ more_tables)
  /\ (forall name password role,
         In (name, password, role) Database.seed_users ->
         exists u, In u (Database.users (Database.initialise_database o s))
                   /\ Database.username u = name)
  /\ (forall number capacity location,
         In (number, capacity, location) Database.seed_tables ->
         exists t, In t (Database.tables (Database.initialise_database o s))
                   /\ Database.table_number t = number).
Proof.
  unfold Database.initialise_database.
  destruct (Database.seed_users_loop o 0 0 Database.seed_users
              (Database.users s)) as [uuids us] eqn:Hus.
  cbn [Database.users Database.tables].
  assert (Hu : forall name,
             In name (map (fun x => fst (fst x)) Database.seed_users) ->
             existsb (fun u => Database.username u =? name) us = true).
  { intros name Hin.
    destruct (seed_users_loop_grows o name Database.seed_users 0 0
                (Database.users s)) as [_ H].
    rewrite Hus in H. apply H. now right. }
  assert (Ht : forall number,
             In number (map (fun x => fst (fst x)) Database.seed_tables) ->
             existsb (fun t => (Database.table_number t =? number)%Z)
               (Database.seed_tables_loop o uuids Database.seed_tables
                  (Database.tables s)) = true).
  { intros number Hin.
    destruct (seed_tables_loop_grows o number Database.seed_tables uuids
                (Database.tables s)) as [_ H].
    apply H. now right. }
  split; [|split; [|split]].
  - rewrite (seed_users_loop_fixed o' Database.seed_users 0 0 us Hu).
    now rewrite (seed_tables_loop_fixed o' Database.seed_tables 0 _ Ht).
  - destruct (seed_users_loop_grows o "" Database.seed_users 0 0
                (Database.users s)) as [[more_users Hmu] _].
    destruct (seed_tables_loop_grows o 0%Z Database.seed_tables uuids
                (Database.tables s)) as [[more_tables Hmt] _].
    rewrite Hus in Hmu. now exists more_users, more_tables.
  - intros name password role Hin.
    assert (Hname : In name (map (fun x => fst (fst x)) Database.seed_users))
      by (apply in_map_iff; now exists (name, password, role)).
    specialize (Hu name Hname). apply existsb_exists in Hu.
    destruct Hu as (u & Hinu & Heq). exists u.
    split; [assumption|now apply String.eqb_eq].
  - intros number capacity location Hin.
    assert (Hnum : In number (map (fun x => fst (fst x)) Database.seed_tables))
      by (apply in_map_iff; now exists (number, capacity, location)).
    specialize (Ht number Hnum). apply existsb_exists in Ht.
    destruct Ht as (t & Hint & Heq). exists t.
    split; [assumption|now apply Z.eqb_eq].
Qed.

(** A run on the empty store seeds two users and five tables. *)
Example bootstrap_of_empty_store :
  map Database.username
      (Database.users (Database.initialise_database Cases.fresh Cases.empty))
  = ["admin"; "staff1"]
  /\ map Database.table_number
         (Database.tables (Database.initialise_database Cases.fresh Cases.empty))
     = [1; 2; 3; 4; 5]%Z
  /\ map Database.table_id
         (Database.tables (Database.initialise_database Cases.fresh Cases.empty))
     = ["id-2"; "id-3"; "id-4"; "id-5"; "id-6"].
Proof. repeat split. Qed.

(** ** Creation, then listing *)

(** X22. A booking just made is listed for the customer who made it: after
    a successful [create_booking] by a caller who is neither admin nor staff,
    [list_bookings] for that caller contains the new booking with the number
    of its table. *)
Theorem created_booking_is_listed
    (e : env) (booking : BookingCreate.t) (user : CurrentUser.t)
    (s s1 : state) (r : response)
    (Hrole : str_in (CurrentUser.role user) ["admin"; "staff"] = false)
    (Hcreate : create_booking e booking user s = (Return r, s1)) :
  exists l number,
    r = RBooking (new_booking e booking user) number
    /\ list_bookings user s1 = (Return (RBookings l), s1)
    /\ In (Listing.Make (new_booking e booking user) None number) l.
Proof.
  destruct (create_booking_run e booking user s) as [out Hrun].
  rewrite Hcreate in Hrun.
  destruct (find _ (tables s)) as [table_row|] eqn:Ht; [|discriminate].
  destruct (_ >? _)%Z; [discriminate|].
  destruct (find _ (bookings s)); [discriminate|].
  inversion Hrun; subst; clear Hrun.
  apply find_some in Ht. destruct Ht as [Hin Hid].
  unfold list_bookings. rewrite bind_run. cbn [get ret]. rewrite Hrole.
  eexists. exists (Table.number table_row).
  split; [reflexivity|]. split; [reflexivity|].
  apply order_by_In, in_flat_map.
  exists (new_booking e booking user). split.
  - apply filter_In. cbn [log_more bookings]. split.
    + apply in_app_iff. right. now left.
    + cbn [new_booking Booking.user_id]. apply String.eqb_refl.
  - apply in_map_iff. exists table_row. split; [reflexivity|].
    apply filter_In. cbn [log_more tables]. split; [assumption|].
    cbn [new_booking Booking.table_id]. now rewrite String.eqb_sym.
Qed.

Lemma created_booking_is_listed_witness :
  exists l number,
    list_bookings (CurrentUser.of_row Sample.bob)
      (State [Sample.alice; Sample.bob; Sample.carol] [Sample.T]
             [Sample.B1;
              Booking.Row "b-9" "u-bob" "t-1" "2024-06-01" "20:00" "21:00" 2
                          "confirmed" "2024-05-01T12:00:00+07:00"] [])
    = (Return (RBookings l),
       State [Sample.alice; Sample.bob; Sample.carol] [Sample.T]
             [Sample.B1;
              Booking.Row "b-9" "u-bob" "t-1" "2024-06-01" "20:00" "21:00" 2
                          "confirmed" "2024-05-01T12:00:00+07:00"] [])
    /\ In (Listing.Make
             (Booking.Row "b-9" "u-bob" "t-1" "2024-06-01" "20:00" "21:00" 2
                          "confirmed" "2024-05-01T12:00:00+07:00")
             None number) l.
Proof.
  destruct (@created_booking_is_listed (Sample.world "b-9")
              (Sample.slot "20:00" "21:00" 2) (CurrentUser.of_row Sample.bob)
              Sample.store1
              (State [Sample.alice; Sample.bob; Sample.carol] [Sample.T]
                     [Sample.B1;
                      Booking.Row "b-9" "u-bob" "t-1" "2024-06-01" "20:00"
                                  "21:00" 2 "confirmed"
                                  "2024-05-01T12:00:00+07:00"] [])
              (RBooking
                 (Booking.Row "b-9" "u-bob" "t-1" "2024-06-01" "20:00" "21:00"
                              2 "confirmed" "2024-05-01T12:00:00+07:00") 7)
              eq_refl eq_refl)
    as (l & number & _ & Hlist & Hin).
  now exists l, number.
Defined.
